(** * fabric-sdk-go, package [config]: a shallow embedding of [config/config.go]

    The package reads settings from a process-wide viper instance and turns
    them into peer records, a certificate pool and a JSON client
    descriptor.  Functions that can panic return a [result]; functions that
    return a Go [error] return an [option error] next to their value;
    the file system, the environment and the viper instance are passed
    explicitly. *)

From Stdlib Require Import String Ascii List ZArith Lia Bool.
From Stdlib Require Import Strings.Byte.
From Stdlib Require Import Decimal DecimalString DecimalZ.
Import ListNotations.

Local Open Scope list_scope.
Local Open Scope string_scope.

(* ================================================================== *)
(** ** Go run-time values, errors and panics *)

(** A Go [error], identified with the text of its [Error()] method. *)
Definition error := string.

(** The dynamic content of an [interface{}] as the settings backend hands
    it out.  [VMapS] is a [map[string]interface{}], [VMapI] a
    [map[interface{}]interface{}]; both are kept as association lists,
    the first binding of a key being the one the map holds. *)
#[warning="-register-all"] Inductive value : Type :=
| VNil
| VBool (b : bool)
| VInt (i : Z)
| VString (s : string)
| VSlice (l : list value)
| VMapS (m : list (string * value))
| VMapI (m : list (value * value)).

(** Run-time errors raised by the Go runtime itself. *)
Inductive runtimeError : Type :=
| TypeAssertionError     (* interface conversion: x.(T) with a single result *)
| NilDereference.        (* invalid memory address or nil pointer dereference *)

(** What a panic carries. *)
Inductive panicValue : Type :=
| PanicString (msg : string)       (* panic(fmt.Sprintf(...)) *)
| PanicError (e : error)           (* panic(err) *)
| PanicRuntime (e : runtimeError).

(** A computation that either returns or panics. *)
Inductive result (A : Type) : Type :=
| Ok (a : A)
| Panic (p : panicValue).

Arguments Ok {A} a.
Arguments Panic {A} p.

Definition bind {A B : Type} (r : result A) (k : A -> result B) : result B :=
  match r with
  | Ok a => k a
  | Panic p => Panic p
  end.

Notation "x <- r ;; k" := (bind r (fun x => k))
  (at level 61, r at next level, right associativity).

Definition panics {A : Type} (r : result A) : Prop :=
  exists p, r = Panic p.

(** [m[k]] on a [map[string]interface{}]: the nil interface when absent. *)
Fixpoint indexS (m : list (string * value)) (k : string) : value :=
  match m with
  | [] => VNil
  | (k', v) :: m' => if (k' =? k)%string then v else indexS m' k
  end.

(** [m[k]] on a [map[interface{}]interface{}] with a string key [k]. *)
Fixpoint indexI (m : list (value * value)) (k : string) : value :=
  match m with
  | [] => VNil
  | (VString k', v) :: m' => if (k' =? k)%string then v else indexI m' k
  | _ :: m' => indexI m' k
  end.

(** [v, ok := x.(string)] *)
Definition assertString (x : value) : string * bool :=
  match x with
  | VString s => (s, true)
  | _ => ("", false)
  end.

(** [v, ok := x.(int)] *)
Definition assertInt (x : value) : Z * bool :=
  match x with
  | VInt i => (i, true)
  | _ => (0%Z, false)
  end.

(** [v, ok := x.(map[string]interface{})] *)
Definition assertMapS (x : value) : list (string * value) * bool :=
  match x with
  | VMapS m => (m, true)
  | _ => ([], false)
  end.

(** [x.(map[string]interface{})] with a single result: panics on mismatch. *)
Definition mustMapS (x : value) : result (list (string * value)) :=
  match x with
  | VMapS m => Ok m
  | _ => Panic (PanicRuntime TypeAssertionError)
  end.

(** [x.(map[interface{}]interface{})] with a single result. *)
Definition mustMapI (x : value) : result (list (value * value)) :=
  match x with
  | VMapI m => Ok m
  | _ => Panic (PanicRuntime TypeAssertionError)
  end.

(* ================================================================== *)
(** ** Package [strings] and [strconv] *)

(** [s[n:]] *)
Fixpoint drop (n : nat) (s : string) : string :=
  match n, s with
  | O, _ => s
  | S _, EmptyString => EmptyString
  | S n', String _ s' => drop n' s'
  end.

(** [strings.Contains(s, substr)] *)
Fixpoint Contains (s substr : string) : bool :=
  prefix substr s ||
  match s with
  | EmptyString => false
  | String _ s' => Contains s' substr
  end.

(** [strings.Cut(s, sep)]: the text before and after the first instance of
    [sep], that is [s[:j]] and [s[j+len(sep):]] for [j = Index(s, sep)]. *)
Fixpoint Cut (s sep : string) : option (string * string) :=
  if prefix sep s then Some (EmptyString, drop (String.length sep) s)
  else
    match s with
    | EmptyString => None
    | String c s' =>
        match Cut s' sep with
        | Some (before, after) => Some (String c before, after)
        | None => None
        end
    end.

(** The loop of [strings.Replace]: copy up to the next instance of [old],
    write [new], continue behind the instance; the remainder is copied
    when no instance is left.  Every round consumes at least [len(old)]
    bytes, so [length s] rounds are enough for a non-empty [old]. *)
Fixpoint replaceLoop (rounds : nat) (s old new : string) : string :=
  match rounds with
  | O => s
  | S rounds' =>
      match Cut s old with
      | None => s
      | Some (before, after) =>
          before ++ new ++ replaceLoop rounds' after old new
      end
  end.

(** [strings.Replace(s, old, new, -1)] for a non-empty [old]. *)
Definition ReplaceAll (s old new : string) : string :=
  replaceLoop (String.length s) s old new.

(** [strconv.Itoa]: the decimal form, with a leading [-] below zero. *)
Definition Itoa (i : Z) : string :=
  NilZero.string_of_int (Z.to_int i).

(** [strconv.Atoi] restricted to what [Itoa] writes. *)
Definition Atoi (s : string) : option Z :=
  option_map Z.of_int (NilZero.int_of_string s).

(* ================================================================== *)
(** ** The process environment and the settings backend *)

(** Environment variables; [os.Getenv] gives [""] for an unset one. *)
Definition Env := string -> option string.

Definition Getenv (env : Env) (name : string) : string :=
  match env name with
  | Some v => v
  | None => ""
  end.

(** [fabricCAConfig]; a nil [Certfiles] slice is [None]. *)
Record fabricCAConfig : Type := {
  ServerURL : string;
  Certfiles : option (list string);
  ClientKeyfile : string;
  ClientCertfile : string
}.

(** The viper instance [myViper], seen through the accessors the package
    calls.  [GetStringMap] lists the bindings in the order in which the
    [range] statement of this call visits them. *)
Record Viper : Type := {
  ConfigFileUsed : string;
  GetString : string -> string;
  GetInt : string -> Z;
  GetBool : string -> bool;
  GetStringMap : string -> list (string * value);
  UnmarshalKey : string -> fabricCAConfig -> fabricCAConfig * option error
}.

(* ================================================================== *)
(** ** [PeerConfig] and [GetPeersConfig] *)

Record PeerConfig : Type := {
  Host : string;
  Port : string;
  EventHost : string;
  EventPort : string;
  TLSCertificate : string;
  TLSServerHostOverride : string
}.

(** The local variables filled in by lines 107-131. *)
Record peerFields : Type := {
  host : string;
  port : Z;
  eventHost : string;
  eventPort : Z;
  tlsCertificate : string;
  tlsServerHostOverride : string
}.

(** [IsTLSEnabled] *)
Definition IsTLSEnabled (v : Viper) : bool :=
  GetBool v "client.tls.enabled".

(** Lines 107-131: the fields of one entry, by the shape of its value. *)
Definition extractFields (value : value) : result peerFields :=
  let '(mm, ok) := assertMapS value in
  if ok then
    let host := fst (assertString (indexS mm "host")) in
    let port := fst (assertInt (indexS mm "port")) in
    let eventHost := fst (assertString (indexS mm "event_host")) in
    let eventPort := fst (assertInt (indexS mm "event_port")) in
    tls <- mustMapS (indexS mm "tls") ;;
    let tlsCertificate := fst (assertString (indexS tls "certificate")) in
    tls' <- mustMapS (indexS mm "tls") ;;
    let tlsServerHostOverride :=
      fst (assertString (indexS tls' "serverhostoverride")) in
    Ok {| host := host; port := port; eventHost := eventHost;
          eventPort := eventPort; tlsCertificate := tlsCertificate;
          tlsServerHostOverride := tlsServerHostOverride |}
  else
    mm1 <- mustMapI value ;;
    let host := fst (assertString (indexI mm1 "host")) in
    let port := fst (assertInt (indexI mm1 "port")) in
    let eventHost := fst (assertString (indexI mm1 "event_host")) in
    let eventPort := fst (assertInt (indexI mm1 "event_port")) in
    tls <- mustMapS (indexI mm1 "tls") ;;
    let tlsCertificate := fst (assertString (indexS tls "certificate")) in
    tls' <- mustMapS (indexI mm1 "tls") ;;
    let tlsServerHostOverride :=
      fst (assertString (indexS tls' "serverhostoverride")) in
    Ok {| host := host; port := port; eventHost := eventHost;
          eventPort := eventPort; tlsCertificate := tlsCertificate;
          tlsServerHostOverride := tlsServerHostOverride |}.

(** Lines 133-151: the record of one entry, or the panic of its checks. *)
Definition checkPeer (v : Viper) (env : Env) (key : string) (f : peerFields)
  : result PeerConfig :=
  let p := {| Host := host f; Port := Itoa (port f);
              EventHost := eventHost f; EventPort := Itoa (eventPort f);
              TLSCertificate := tlsCertificate f;
              TLSServerHostOverride := tlsServerHostOverride f |} in
  if (Host p =? "")%string then
    Panic (PanicString ("host key not exist or empty for " ++ key))
  else if (Port p =? "")%string then
    Panic (PanicString ("port key not exist or empty for " ++ key))
  else if (EventHost p =? "")%string then
    Panic (PanicString ("event_host not exist or empty for " ++ key))
  else if (EventPort p =? "")%string then
    Panic (PanicString ("event_port not exist or empty for " ++ key))
  else if IsTLSEnabled v && (TLSCertificate p =? "")%string then
    Panic (PanicString ("tls.certificate not exist or empty for " ++ key))
  else
    Ok {| Host := Host p; Port := Port p;
          EventHost := EventHost p; EventPort := EventPort p;
          TLSCertificate :=
            ReplaceAll (TLSCertificate p) "$GOPATH" (Getenv env "GOPATH");
          TLSServerHostOverride := TLSServerHostOverride p |}.

(** The body of the [range] loop, lines 107-152, for one binding. *)
Definition peerEntry (v : Viper) (env : Env) (key : string) (value : value)
  : result PeerConfig :=
  f <- extractFields value ;;
  checkPeer v env key f.

(** The [range] loop over the bindings that are still to be visited. *)
Fixpoint peersLoop (v : Viper) (env : Env) (peers : list (string * value))
  (peersConfig : list PeerConfig) : result (list PeerConfig) :=
  match peers with
  | [] => Ok peersConfig
  | (key, value) :: rest =>
      p <- peerEntry v env key value ;;
      peersLoop v env rest (peersConfig ++ [p])%list
  end.

(** [GetPeersConfig] *)
Definition GetPeersConfig (v : Viper) (env : Env) : result (list PeerConfig) :=
  peersLoop v env (GetStringMap v "client.peers") [].

(** [GetOrdererPort] *)
Definition GetOrdererPort (v : Viper) : string :=
  Itoa (GetInt v "client.orderer.port").

(** [GetOrdererTLSCertificate] *)
Definition GetOrdererTLSCertificate (v : Viper) (env : Env) : string :=
  ReplaceAll (GetString v "client.orderer.tls.certificate") "$GOPATH"
    (Getenv env "GOPATH").

(* ================================================================== *)
(** ** Files *)

Record File : Type := {
  content : list byte;
  mode : Z
}.

(** The part of the file system the package touches: the files by path,
    and, for a path that cannot be opened (permissions, a missing
    directory), the error the open reports. *)
Record FileSystem : Type := {
  files : string -> option File;
  openError : string -> option error
}.

(** [ioutil.ReadFile] *)
Definition ReadFile (fs : FileSystem) (filename : string)
  : list byte * option error :=
  match openError fs filename with
  | Some err => ([], Some err)
  | None =>
      match files fs filename with
      | Some f => (content f, None)
      | None => ([], Some ("open " ++ filename ++ ": no such file or directory"))
      end
  end.

(** [ioutil.WriteFile]: create or truncate, then write; [perm] is used
    only when the file is created. *)
Definition WriteFile (fs : FileSystem) (filename : string) (data : list byte)
  (perm : Z) : FileSystem * option error :=
  match openError fs filename with
  | Some err => (fs, Some err)
  | None =>
      let m := match files fs filename with
               | Some f => mode f
               | None => perm
               end in
      ({| files := fun name =>
            if (name =? filename)%string
            then Some {| content := data; mode := m |}
            else files fs name;
          openError := openError fs |}, None)
  end.

(* ================================================================== *)
(** ** Certificates *)

(** [pem.Block] *)
Record Block : Type := {
  BlockType : string;
  Headers : list (string * string);
  Bytes : list byte
}.

(** [x509.Certificate], by its DER encoding. *)
Record Certificate : Type := {
  Raw : list byte
}.

(** [x509.CertPool] *)
Definition CertPool := list Certificate.

Definition NewCertPool : CertPool := [].

Definition certEqual (c d : Certificate) : bool :=
  if list_eq_dec Byte.byte_eq_dec (Raw c) (Raw d) then true else false.

(** [CertPool.AddCert] for a non-nil certificate: a certificate that
    is already in the pool is not added twice. *)
Definition AddCert (s : CertPool) (cert : Certificate) : CertPool :=
  if existsb (fun c => certEqual c cert) s then s else (s ++ [cert])%list.

(* ================================================================== *)
(** ** Logging *)

(** [logging.Level] *)
Inductive Level : Type := CRITICAL | ERROR | WARNING | NOTICE | INFO | DEBUG.

(** The package-level state: [myViper] and the level registered for the
    module [fabric_sdk_go] by the last [SetBackend(...).SetLevel]. *)
Record Process : Type := {
  myViper : Viper;
  moduleLevel : option Level
}.

(** [Viper.SetConfigFile] *)
Definition SetConfigFile (v : Viper) (file : string) : Viper :=
  {| ConfigFileUsed := file;
     GetString := GetString v;
     GetInt := GetInt v;
     GetBool := GetBool v;
     GetStringMap := GetStringMap v;
     UnmarshalKey := UnmarshalKey v |}.

(* ================================================================== *)
(** ** Functions that call into viper's reader, go-logging, [encoding/pem],
       [crypto/x509] and [encoding/json] *)

Section Externals.

(** [Viper.ReadInConfig]: the instance after reading the file given to
    [SetConfigFile], and the error of the reader. *)
Variable ReadInConfig : Viper -> Viper * option error.

(** [logging.LogLevel] *)
Variable LogLevel : string -> Level * option error.

(** [pem.Decode]: the first block, nil when there is none, and the rest. *)
Variable pemDecode : list byte -> option Block * list byte.

(** [x509.ParseCertificate] *)
Variable ParseCertificate : list byte -> Certificate + error.

(** [json.Marshal] on a [fabricCAConfig]. *)
Variable jsonMarshal : fabricCAConfig -> list byte * option error.

(** Lines 78-93 of [InitConfig]: the level for [fabric_sdk_go] is read
    from the settings and registered with a new backend.  The messages a
    call writes to the log are not part of the model. *)
Definition setLoggingLevel (v : Viper) : result (option error * Process) :=
  let loggingLevelString := GetString v "client.logging.level" in
  logLevel <-
    (if negb (loggingLevelString =? "")%string then
       match LogLevel loggingLevelString with
       | (_, Some err) => Panic (PanicError err)
       | (l, None) => Ok l
       end
     else Ok INFO) ;;
  Ok (None, {| myViper := v; moduleLevel := Some logLevel |}).

(** [InitConfig]: the returned error and the package state it leaves. *)
Definition InitConfig (configFile : string) (st : Process)
  : result (option error * Process) :=
  if negb (configFile =? "")%string then
    match ReadInConfig (SetConfigFile (myViper st) configFile) with
    | (v, None) => setLoggingLevel v
    | (v, Some err) =>
        Ok (Some ("Fatal error config file: " ++ err),
            {| myViper := v; moduleLevel := moduleLevel st |})
    end
  else setLoggingLevel (myViper st).

(** [loadCAKey] *)
Definition loadCAKey (rawData : list byte) : result Certificate :=
  let '(block, _) := pemDecode rawData in
  der <- match block with
         | Some b => Ok (Bytes b)
         | None => Panic (PanicRuntime NilDereference)
         end ;;
  match ParseCertificate der with
  | inr err => Panic (PanicError err)
  | inl pub => Ok pub
  end.

(** [GetTLSCACertPool]; a nil pool is [None]. *)
Definition GetTLSCACertPool (fs : FileSystem) (tlsCertificate : string)
  : result (option CertPool * option error) :=
  let certPool := NewCertPool in
  if negb (tlsCertificate =? "")%string then
    match ReadFile fs tlsCertificate with
    | (_, Some err) => Ok (None, Some err)
    | (rawData, None) =>
        cert <- loadCAKey rawData ;;
        Ok (Some (AddCert certPool cert), None)
    end
  else Ok (Some certPool, None).

(** The zero [fabricCAConfig]. *)
Definition zeroFabricCAConfig : fabricCAConfig :=
  {| ServerURL := ""; Certfiles := None;
     ClientKeyfile := ""; ClientCertfile := "" |}.

(** [GetFabricCAClientPath]: the returned pair and the file system it
    leaves behind. *)
Definition GetFabricCAClientPath (v : Viper) (fs : FileSystem)
  : (string * option error) * FileSystem :=
  let filePath := "/tmp/client-config.json" in
  let fabricCAConf := zeroFabricCAConfig in
  match UnmarshalKey v "client.fabricCA" fabricCAConf with
  | (_, Some err) => (("", Some err), fs)
  | (fabricCAConf, None) =>
      match jsonMarshal fabricCAConf with
      | (_, Some err) => (("", Some err), fs)
      | (jsonConfig, None) =>
          let '(fs', err) := WriteFile fs filePath jsonConfig 420 (* 0644 *) in
          ((filePath, err), fs')
      end
  end.

End Externals.

(* ================================================================== *)
(** ** The accessors that read one setting *)

(** [GetFabricClientViper] *)
Definition GetFabricClientViper (st : Process) : Viper := myViper st.

(** [IsSecurityEnabled] *)
Definition IsSecurityEnabled (v : Viper) : bool :=
  GetBool v "client.security.enabled".

(** [TcertBatchSize] *)
Definition TcertBatchSize (v : Viper) : Z :=
  GetInt v "client.tcert.batch.size".

(** [GetSecurityAlgorithm] *)
Definition GetSecurityAlgorithm (v : Viper) : string :=
  GetString v "client.security.hashAlgorithm".

(** [GetSecurityLevel] *)
Definition GetSecurityLevel (v : Viper) : Z :=
  GetInt v "client.security.level".

(** [GetOrdererHost] *)
Definition GetOrdererHost (v : Viper) : string :=
  GetString v "client.orderer.host".

(** [GetOrdererTLSServerHostOverride] *)
Definition GetOrdererTLSServerHostOverride (v : Viper) : string :=
  GetString v "client.orderer.tls.serverhostoverride".

(** [GetFabricCAID] *)
Definition GetFabricCAID (v : Viper) : string :=
  GetString v "client.fabricCA.id".

(** [GetKeyStorePath] *)
Definition GetKeyStorePath (v : Viper) : string :=
  GetString v "client.keystore.path".

(* ================================================================== *)
(** ** Reading an entry by key, whatever its shape *)

(** The value bound to [k] in an entry of either map shape. *)
Definition field (entry : value) (k : string) : value :=
  match entry with
  | VMapS m => indexS m k
  | VMapI m => indexI m k
  | _ => VNil
  end.

(** The two shapes lines 107 and 123 accept. *)
Definition supportedShape (entry : value) : Prop :=
  match entry with
  | VMapS _ | VMapI _ => True
  | _ => False
  end.

(** [strings.IndexByte(s, c) >= 0] *)
Fixpoint ContainsByte (s : string) (c : ascii) : bool :=
  match s with
  | EmptyString => false
  | String a s' => (a =? c)%char || ContainsByte s' c
  end.

(** A replacement that cannot complete or begin a new [$GOPATH]: it is
    not empty, holds no [$], and its first byte is not a letter of
    [GOPATH]. *)
Definition inertReplacement (new : string) : Prop :=
  match new with
  | EmptyString => False
  | String e _ => ContainsByte new "$" = false /\ ContainsByte "GOPATH" e = false
  end.

(** The certificate path an entry configures under its [tls] section. *)
Definition configuredCertificate (entry : value) : string :=
  fst (assertString (field (field entry "tls") "certificate")).

(** [resolved] is [raw] with each [$GOPATH], met from left to right and
    never looked for in what was written, replaced by [new]: a [raw]
    without the token is left as it is; otherwise the text before the
    first token is kept, the token gives [new], and the text behind it
    is treated in the same way. *)
Inductive tokensReplaced (new : string) : string -> string -> Prop :=
| replaced_none (s : string) :
    Contains s "$GOPATH" = false -> tokensReplaced new s s
| replaced_first (before after r : string) :
    Contains before "$GOPATH" = false ->
    tokensReplaced new after r ->
    tokensReplaced new (before ++ "$GOPATH" ++ after) (before ++ new ++ r).

(** [resolved] is [raw] as resolved under [env]: with [GOPATH] set to
    [/opt/build] every token is replaced by [/opt/build], a token that
    is the only one being the only text that changes; with [GOPATH]
    unset every token is replaced by the empty string. *)
Definition pathResolved (env : Env) (raw resolved : string) : Prop :=
  (env "GOPATH" = Some "/opt/build" ->
   tokensReplaced "/opt/build" raw resolved /\
   (forall before after,
      raw = before ++ "$GOPATH" ++ after ->
      Contains before "$GOPATH" = false ->
      Contains after "$GOPATH" = false ->
      resolved = before ++ "/opt/build" ++ after)) /\
  (env "GOPATH" = None ->
   tokensReplaced "" raw resolved /\
   (forall before after,
      raw = before ++ "$GOPATH" ++ after ->
      Contains before "$GOPATH" = false ->
      Contains after "$GOPATH" = false ->
      resolved = before ++ after)).

(** Every [$] of [s] begins a [$GOPATH]. *)
Fixpoint onlyTokenDollars (s : string) : bool :=
  match s with
  | EmptyString => true
  | String c s' =>
      (if (c =? "$")%char then prefix "GOPATH" s' else true)
      && onlyTokenDollars s'
  end.

(** Conditions under which replacing the tokens of [raw] by [new] leaves
    no token: [new] cannot complete or begin one, or [new] holds no [$]
    (it may be empty) and [raw] holds no [$] besides those of its
    tokens. *)
Definition tokenFreeAfter (new raw : string) : Prop :=
  inertReplacement new \/
  (ContainsByte new "$" = false /\ onlyTokenDollars raw = true).

(** An entry that [GetPeersConfig] accepts: one of the two shapes, with a
    string-keyed [tls] section, a host and an event host, and, when TLS
    is on, a certificate. *)
Definition validEntry (v : Viper) (entry : value) : Prop :=
  supportedShape entry /\
  (exists tls, field entry "tls" = VMapS tls) /\
  fst (assertString (field entry "host")) <> "" /\
  fst (assertString (field entry "event_host")) <> "" /\
  (IsTLSEnabled v = true ->
   fst (assertString (field (field entry "tls") "certificate")) <> "").

(** The record an accepted entry stands for: strings as configured,
    ports in decimal form ([0] for a port that is not an integer), the
    token of the certificate path replaced. *)
Definition entryRecord (env : Env) (entry : value) : PeerConfig :=
  {| Host := fst (assertString (field entry "host"));
     Port := Itoa (fst (assertInt (field entry "port")));
     EventHost := fst (assertString (field entry "event_host"));
     EventPort := Itoa (fst (assertInt (field entry "event_port")));
     TLSCertificate :=
       ReplaceAll
         (fst (assertString (field (field entry "tls") "certificate")))
         "$GOPATH" (Getenv env "GOPATH");
     TLSServerHostOverride :=
       fst (assertString (field (field entry "tls") "serverhostoverride")) |}.

(** The bindings of a [map[string]interface{}] as those of a
    [map[interface{}]interface{}] with the same string keys. *)
Definition stringKeys (m : list (string * value)) : list (value * value) :=
  List.map (fun kv => (VString (fst kv), snd kv)) m.

(** The settings [InitConfig] reads the level from: those of the package
    when no file is given, those the reader loaded otherwise. *)
Definition loaded (ReadInConfig : Viper -> Viper * option error)
  (configFile : string) (st : Process) (v : Viper) : Prop :=
  (configFile = "" /\ v = myViper st) \/
  (configFile <> "" /\
   ReadInConfig (SetConfigFile (myViper st) configFile) = (v, None)).


(* ================================================================== *)
(** ** Concrete settings, environments and files for running the functions *)

(** A viper instance holding the given settings. *)
Definition memoryViper (strings : list (string * string))
  (ints : list (string * Z)) (bools : list (string * bool))
  (maps : list (string * list (string * value)))
  (fabricCA : fabricCAConfig * option error) : Viper :=
  let find {A} (d : A) (l : list (string * A)) (k : string) : A :=
    match List.find (fun kv => (fst kv =? k)%string) l with
    | Some kv => snd kv
    | None => d
    end in
  {| ConfigFileUsed := "";
     GetString := find "" strings;
     GetInt := find 0%Z ints;
     GetBool := find false bools;
     GetStringMap := find [] maps;
     UnmarshalKey := fun _ _ => fabricCA |}.

Definition tlsSection : value :=
  VMapS [("certificate", VString "$GOPATH/tls/ca.pem");
         ("serverhostoverride", VString "peer0")].

(** A complete entry as a [map[string]interface{}]. *)
Definition peer0 : value :=
  VMapS [("host", VString "localhost"); ("port", VInt 7051);
         ("event_host", VString "localhost"); ("event_port", VInt 7053);
         ("tls", tlsSection)].

(** The same entry as a [map[interface{}]interface{}]. *)
Definition peer0I : value :=
  VMapI [(VString "host", VString "localhost"); (VString "port", VInt 7051);
         (VString "event_host", VString "localhost");
         (VString "event_port", VInt 7053); (VString "tls", tlsSection)].

(** An entry without [port]. *)
Definition peerNoPort : value :=
  VMapS [("host", VString "localhost");
         ("event_host", VString "localhost"); ("event_port", VInt 7053);
         ("tls", tlsSection)].

(** The same, as a [map[interface{}]interface{}] and without [event_port]. *)
Definition peerNoEventPortI : value :=
  VMapI [(VString "host", VString "localhost"); (VString "port", VInt 7051);
         (VString "event_host", VString "localhost");
         (VString "tls", tlsSection)].

(** An entry without a [tls] section. *)
Definition peerNoTLS : value :=
  VMapS [("host", VString "localhost"); ("port", VInt 7051);
         ("event_host", VString "localhost"); ("event_port", VInt 7053)].

Definition peerNoTLSI : value :=
  VMapI [(VString "host", VString "localhost"); (VString "port", VInt 7051);
         (VString "event_host", VString "localhost");
         (VString "event_port", VInt 7053)].

(** An entry whose [tls] section is a string. *)
Definition peerTLSString : value :=
  VMapS [("host", VString "localhost"); ("port", VInt 7051);
         ("event_host", VString "localhost"); ("event_port", VInt 7053);
         ("tls", VString "ca.pem")].

(** An entry whose [tls] section has no certificate. *)
Definition peerNoCert : value :=
  VMapS [("host", VString "localhost"); ("port", VInt 7051);
         ("event_host", VString "localhost"); ("event_port", VInt 7053);
         ("tls", VMapS [("serverhostoverride", VString "peer0")])].

Definition sampleCA : fabricCAConfig :=
  {| ServerURL := "https://ca:7054"; Certfiles := Some ["a.pem"];
     ClientKeyfile := "k.pem"; ClientCertfile := "c.pem" |}.

(** Settings with the given peers and TLS flag. *)
Definition settings (peers : list (string * value)) (tls : bool) : Viper :=
  memoryViper
    [("client.orderer.tls.certificate", "$GOPATH/orderer/ca.pem")]
    [("client.orderer.port", 7050%Z)]
    [("client.tls.enabled", tls)]
    [("client.peers", peers)]
    (sampleCA, None).

(** Settings whose certificate paths nest one token in another. *)
Definition nestedTokenSettings : Viper :=
  memoryViper
    [("client.orderer.tls.certificate", "$GO$GOPATHPATH/ca.pem")]
    [] []
    [("client.peers",
      [("peer0",
        VMapS [("host", VString "localhost"); ("port", VInt 7051);
               ("event_host", VString "localhost"); ("event_port", VInt 7053);
               ("tls", VMapS [("certificate",
                               VString "$GO$GOPATHPATH/ca.pem")])])])]
    (sampleCA, None).

Definition envBuild : Env :=
  fun name => if (name =? "GOPATH")%string then Some "/opt/build" else None.

Definition envUnset : Env := fun _ => None.

(** A file system holding one file. *)
Definition oneFile (name : string) (data : list byte) : FileSystem :=
  {| files := fun n =>
       if (n =? name)%string then Some {| content := data; mode := 420 |}
       else None;
     openError := fun _ => None |}.

(** A file system on which no file can be opened. *)
Definition lockedFS : FileSystem :=
  {| files := fun _ => None;
     openError := fun n => Some ("open " ++ n ++ ": permission denied") |}.

(** A stand-in for [pem.Decode]: a block is a [-] followed by its bytes. *)
Definition dashDecode (data : list byte) : option Block * list byte :=
  match data with
  | x2d :: rest =>
      (Some {| BlockType := "CERTIFICATE"; Headers := []; Bytes := rest |}, [])
  | _ => (None, data)
  end.

(** A stand-in for [x509.ParseCertificate]: DER begins with a SEQUENCE tag. *)
Definition sequenceParse (der : list byte) : Certificate + error :=
  match der with
  | x30 :: _ => inl {| Raw := der |}
  | _ => inr "asn1: structure error"
  end.

(** A stand-in for [json.Marshal] on descriptors whose strings need no
    escaping. *)
Definition plainMarshal (c : fabricCAConfig) : list byte * option error :=
  let q := String (ascii_of_nat 34) EmptyString in
  let str s := q ++ s ++ q in
  let fix join (l : list string) : string :=
    match l with
    | [] => ""
    | [s] => str s
    | s :: l' => str s ++ "," ++ join l'
    end in
  let certfiles :=
    match Certfiles c with
    | None => "null"
    | Some l => "[" ++ join l ++ "]"
    end in
  (list_byte_of_string
     ("{" ++ str "serverURL" ++ ":" ++ str (ServerURL c) ++ "," ++
      str "certfiles" ++ ":" ++ certfiles ++ "," ++
      str "client" ++ ":{" ++ str "keyfile" ++ ":" ++ str (ClientKeyfile c) ++
      "," ++ str "certfile" ++ ":" ++ str (ClientCertfile c) ++ "}}"), None).

(** A [json.Marshal] that fails. *)
Definition failingMarshal (c : fabricCAConfig) : list byte * option error :=
  ([], Some "json: unsupported value").

(** A [ReadInConfig] that cannot parse the file. *)
Definition brokenReader (v : Viper) : Viper * option error :=
  (v, Some "While parsing config: yaml: did not find expected key").

(** A [logging.LogLevel] for upper-case names. *)
Definition upperLogLevel (level : string) : Level * option error :=
  if (level =? "CRITICAL")%string then (CRITICAL, None)
  else if (level =? "ERROR")%string then (ERROR, None)
  else if (level =? "WARNING")%string then (WARNING, None)
  else if (level =? "NOTICE")%string then (NOTICE, None)
  else if (level =? "INFO")%string then (INFO, None)
  else if (level =? "DEBUG")%string then (DEBUG, None)
  else (ERROR, Some "logger: invalid log level").

Definition freshProcess : Process :=
  {| myViper := settings [("peer0", peer0)] false; moduleLevel := None |}.

(** An entry whose ports are written as strings. *)
Definition peerQuotedPorts : value :=
  VMapS [("host", VString "localhost"); ("port", VString "7051");
         ("event_host", VString "localhost"); ("event_port", VString "7053");
         ("tls", tlsSection)].

(** An entry without a host. *)
Definition peerNoHost : value :=
  VMapI [(VString "port", VInt 7051);
         (VString "event_host", VString "localhost");
         (VString "event_port", VInt 7053); (VString "tls", tlsSection)].

(** An entry with a host but an empty event host. *)
Definition peerNoEventHost : value :=
  VMapS [("host", VString "localhost"); ("port", VInt 7051);
         ("event_host", VString ""); ("event_port", VInt 7053);
         ("tls", tlsSection)].

(** Settings that name a logging level. *)
Definition levelSettings (level : string) : Viper :=
  memoryViper [("client.logging.level", level)] [] [] [] (sampleCA, None).

(** A [ReadInConfig] that loads settings naming the level [level]. *)
Definition levelReader (level : string) (v : Viper) : Viper * option error :=
  (SetConfigFile (levelSettings level) (ConfigFileUsed v), None).

(* ================================================================== *)
(** * Properties *)

(** ** The result monad *)

Lemma bind_Ok {A B : Type} (r : result A) (k : A -> result B) (b : B) :
  bind r k = Ok b -> exists a, r = Ok a /\ k a = Ok b.
Proof.
  destruct r as [a|p]; simpl; intros H; [eauto | discriminate].
Qed.

(** ** Strings *)

Lemma length_append (s t : string) :
  String.length (s ++ t) = String.length s + String.length t.
Proof. induction s; simpl; congruence. Qed.

Lemma drop_append (s t : string) : drop (String.length s) (s ++ t) = t.
Proof. induction s; simpl; auto. Qed.

Lemma prefix_cons (a b : ascii) (p s : string) :
  prefix (String a p) (String b s) = (a =? b)%char && prefix p s.
Proof.
  simpl. destruct (ascii_dec a b) as [->|n].
  - now rewrite Ascii.eqb_refl.
  - apply Ascii.eqb_neq in n. now rewrite n.
Qed.

Lemma prefix_nil_r (p : string) : prefix p "" = true -> p = "".
Proof. destruct p; simpl; [reflexivity | discriminate]. Qed.

Lemma prefix_refl_append (p s : string) : prefix p (p ++ s) = true.
Proof.
  induction p as [|a p IH]; [now destruct s|].
  change (String a p ++ s) with (String a (p ++ s)).
  now rewrite prefix_cons, Ascii.eqb_refl.
Qed.

Lemma prefix_append (p s t : string) :
  prefix p s = true -> prefix p (s ++ t) = true.
Proof.
  revert s; induction p as [|a p IH]; intros s H.
  - now destruct (s ++ t).
  - destruct s as [|b s]; [discriminate|].
    change (String b s ++ t) with (String b (s ++ t)).
    rewrite prefix_cons in *. apply andb_true_iff in H as [-> H].
    now rewrite IH.
Qed.

Lemma prefix_decompose (p s : string) :
  prefix p s = true -> s = p ++ drop (String.length p) s.
Proof.
  revert s; induction p as [|a p IH]; intros s H; [reflexivity|].
  destruct s as [|b s]; [discriminate|].
  rewrite prefix_cons in H. apply andb_true_iff in H as [E H].
  apply Ascii.eqb_eq in E as ->. simpl. f_equal. now apply IH.
Qed.

(** An instance of [p] that begins in [u] lies in [u], or [u] ends with a
    proper beginning of [p] that [w] continues. *)
Lemma prefix_straddle (p u w : string) :
  prefix p (u ++ w) = true ->
  prefix p u = true \/
  exists r, r <> "" /\ p = u ++ r /\ prefix r w = true.
Proof.
  revert u; induction p as [|a p IH]; intros u H.
  - left. now destruct u.
  - destruct u as [|b u].
    + right. exists (String a p). repeat split; [discriminate | exact H].
    + change (String b u ++ w) with (String b (u ++ w)) in H.
      rewrite prefix_cons in H. apply andb_true_iff in H as [E H].
      apply Ascii.eqb_eq in E as <-.
      destruct (IH u H) as [Hp | (r & Hr & -> & Hw)].
      * left. now rewrite prefix_cons, Ascii.eqb_refl.
      * right. exists r. now repeat split.
Qed.

Lemma ContainsByte_append (s t : string) (c : ascii) :
  ContainsByte (s ++ t) c = ContainsByte s c || ContainsByte t c.
Proof.
  induction s as [|a s IH]; simpl; [reflexivity|].
  now rewrite IH, orb_assoc.
Qed.

Lemma Contains_cons (a : ascii) (s sub : string) :
  Contains (String a s) sub = prefix sub (String a s) || Contains s sub.
Proof. reflexivity. Qed.

Lemma Contains_nil (sub : string) : sub <> "" -> Contains "" sub = false.
Proof. destruct sub; [congruence | reflexivity]. Qed.

(** [Contains] finds exactly the strings that have an instance. *)
Lemma Contains_spec (s sub : string) :
  Contains s sub = true <-> exists p q, s = p ++ sub ++ q.
Proof.
  split.
  - induction s as [|a s IH].
    + simpl. rewrite orb_false_r. intros H. apply prefix_nil_r in H as ->.
      now exists "", "".
    + rewrite Contains_cons. intros H. apply orb_true_iff in H as [H|H].
      * exists "", (drop (String.length sub) (String a s)).
        now apply prefix_decompose.
      * destruct (IH H) as (p & q & ->). now exists (String a p), q.
  - intros (p & q & ->). induction p as [|a p IH].
    + simpl ("" ++ _). destruct (sub ++ q) eqn:E.
      * destruct sub; [reflexivity | discriminate].
      * rewrite Contains_cons, <- E, prefix_refl_append. reflexivity.
    + change (String a p ++ sub ++ q) with (String a (p ++ sub ++ q)).
      rewrite Contains_cons, IH. apply orb_true_r.
Qed.

(** ** [Cut] *)

Lemma Cut_cons (c : ascii) (s sep : string) :
  Cut (String c s) sep =
  if prefix sep (String c s)
  then Some ("", drop (String.length sep) (String c s))
  else match Cut s sep with
       | Some (before, after) => Some (String c before, after)
       | None => None
       end.
Proof. reflexivity. Qed.

Lemma Cut_sound (s sep before after : string) :
  Cut s sep = Some (before, after) -> s = before ++ sep ++ after.
Proof.
  revert before; induction s as [|c s IH]; intros before.
  - destruct sep; simpl; [|discriminate]. now intros [= <- <-].
  - rewrite Cut_cons. destruct (prefix sep (String c s)) eqn:E.
    + intros [= <- <-]. now apply prefix_decompose.
    + destruct (Cut s sep) as [[b a]|]; [|discriminate].
      intros [= <- <-]. simpl. f_equal. now apply IH.
Qed.

Lemma Cut_shorter (s sep before after : string) :
  sep <> "" -> Cut s sep = Some (before, after) ->
  String.length after < String.length s.
Proof.
  intros Hsep H. apply Cut_sound in H. subst s.
  rewrite !length_append. destruct sep; [congruence | simpl; lia].
Qed.

Lemma Cut_None (s sep : string) :
  Cut s sep = None <-> Contains s sep = false.
Proof.
  induction s as [|c s IH].
  - destruct sep; simpl; split; congruence.
  - rewrite Cut_cons, Contains_cons.
    destruct (prefix sep (String c s)); simpl; [split; congruence|].
    rewrite <- IH. destruct (Cut s sep) as [[b a]|]; split; congruence.
Qed.

(** The text before the first instance holds no instance. *)
Lemma Cut_before (s sep before after : string) :
  sep <> "" -> Cut s sep = Some (before, after) -> Contains before sep = false.
Proof.
  intros Hsep. revert before; induction s as [|c s IH]; intros before.
  - destruct sep; [congruence | discriminate].
  - rewrite Cut_cons. destruct (prefix sep (String c s)) eqn:E.
    + intros [= <- <-]. now apply Contains_nil.
    + destruct (Cut s sep) as [[b a]|] eqn:Hc; [|discriminate].
      intros [= <- <-]. rewrite Contains_cons, (IH b eq_refl), orb_false_r.
      destruct (prefix sep (String c b)) eqn:Hp; [|reflexivity].
      apply Cut_sound in Hc. subst s.
      apply (prefix_append _ _ (sep ++ a)) in Hp.
      change (String c b ++ sep ++ a) with (String c (b ++ sep ++ a)) in Hp.
      congruence.
Qed.

(** When the first byte of [sep] does not recur in [sep], no instance
    overlaps another, and the first instance behind an instance-free
    [before] is the one written there. *)
Lemma Cut_first (c : ascii) (t before after : string) :
  ContainsByte t c = false ->
  Contains before (String c t) = false ->
  Cut (before ++ String c t ++ after) (String c t) = Some (before, after).
Proof.
  intros Hc. induction before as [|a b IH]; intros Hb.
  - simpl ("" ++ _). change (String c t ++ after) with (String c (t ++ after)).
    rewrite Cut_cons.
    change (String c (t ++ after)) with (String c t ++ after).
    now rewrite prefix_refl_append, drop_append.
  - rewrite Contains_cons in Hb. apply orb_false_iff in Hb as [Hp Hb].
    change (String a b ++ String c t ++ after)
      with (String a (b ++ String c t ++ after)).
    rewrite Cut_cons, (IH Hb).
    destruct (prefix (String c t) (String a (b ++ String c t ++ after))) eqn:E;
      [|reflexivity].
    change (String a (b ++ String c t ++ after))
      with (String a b ++ String c t ++ after) in E.
    apply prefix_straddle in E as [E | (r & Hr & Heq & Hw)]; [congruence|].
    injection Heq as _ Ht. destruct r as [|e r]; [congruence|].
    change (String c t ++ after) with (String c (t ++ after)) in Hw.
    rewrite prefix_cons in Hw. apply andb_true_iff in Hw as [He _].
    apply Ascii.eqb_eq in He as ->.
    rewrite Ht, ContainsByte_append in Hc. simpl in Hc.
    rewrite Ascii.eqb_refl, orb_true_r in Hc. discriminate.
Qed.

(** ** [ReplaceAll] *)

(** More rounds than bytes change nothing. *)
Lemma replaceLoop_rounds (old new : string) :
  old <> "" ->
  forall n s, String.length s <= n ->
    replaceLoop n s old new = replaceLoop (String.length s) s old new.
Proof.
  intros Hold. induction n as [n IH] using lt_wf_ind. intros s Hn.
  destruct s as [|c s].
  - destruct n; [reflexivity|]. simpl.
    destruct old; [congruence | reflexivity].
  - destruct n as [|n]; [simpl in Hn; lia|].
    change (String.length (String c s)) with (S (String.length s)).
    cbn [replaceLoop].
    destruct (Cut (String c s) old) as [[b a]|] eqn:Hc; [|reflexivity].
    pose proof (Cut_shorter _ _ _ _ Hold Hc) as Hlt. simpl in Hlt, Hn.
    rewrite (IH n) by lia.
    rewrite (IH (String.length s)) by lia. reflexivity.
Qed.

(** The equation of the loop: cut at the first instance, replace it, and
    go on behind it. *)
Lemma ReplaceAll_eq (s old new : string) :
  old <> "" ->
  ReplaceAll s old new =
  match Cut s old with
  | None => s
  | Some (before, after) => before ++ new ++ ReplaceAll after old new
  end.
Proof.
  intros Hold. unfold ReplaceAll. destruct s as [|c s].
  - simpl. destruct old; [congruence | reflexivity].
  - change (String.length (String c s)) with (S (String.length s)).
    cbn [replaceLoop].
    destruct (Cut (String c s) old) as [[b a]|] eqn:Hc; [|reflexivity].
    pose proof (Cut_shorter _ _ _ _ Hold Hc) as Hlt. simpl in Hlt.
    rewrite (replaceLoop_rounds old new Hold (String.length s) a) by lia.
    reflexivity.
Qed.

(** A string without an instance is left as it is. *)
Lemma ReplaceAll_absent (s old new : string) :
  old <> "" -> Contains s old = false -> ReplaceAll s old new = s.
Proof.
  intros Hold H. rewrite ReplaceAll_eq by assumption.
  apply Cut_None in H. now rewrite H.
Qed.

(** The first instance is replaced by [new]; what follows it is treated
    in the same way. *)
Lemma ReplaceAll_first (c : ascii) (t before after new : string) :
  ContainsByte t c = false ->
  Contains before (String c t) = false ->
  ReplaceAll (before ++ String c t ++ after) (String c t) new =
  before ++ new ++ ReplaceAll after (String c t) new.
Proof.
  intros Hc Hb. rewrite ReplaceAll_eq by discriminate.
  now rewrite (Cut_first c t before after Hc Hb).
Qed.

(** A string with an instance splits at its first instance. *)
Lemma Contains_first (s sub : string) :
  sub <> "" -> Contains s sub = true ->
  exists before after,
    s = before ++ sub ++ after /\ Contains before sub = false.
Proof.
  intros Hsub H. destruct (Cut s sub) as [[b a]|] eqn:Hc.
  - exists b, a. split; [now apply Cut_sound | now apply Cut_before in Hc].
  - apply Cut_None in Hc. congruence.
Qed.

(** Bytes that are not [c] in front of an instance-free string give an
    instance-free string. *)
Lemma Contains_inert_front (c : ascii) (t new x : string) :
  ContainsByte new c = false ->
  Contains x (String c t) = false ->
  Contains (new ++ x) (String c t) = false.
Proof.
  intros Hn Hx. induction new as [|d n IH]; [exact Hx|].
  simpl in Hn. apply orb_false_iff in Hn as [Hd Hn].
  change (String d n ++ x) with (String d (n ++ x)).
  rewrite Contains_cons, (IH Hn), orb_false_r, prefix_cons.
  rewrite Ascii.eqb_sym, Hd. reflexivity.
Qed.

(** No instance arises across the seam between an instance-free [before]
    and a text whose first byte is foreign to the rest of the token. *)
Lemma Contains_seam (c e : ascii) (t before w : string) :
  ContainsByte t e = false ->
  Contains before (String c t) = false ->
  Contains (String e w) (String c t) = false ->
  Contains (before ++ String e w) (String c t) = false.
Proof.
  intros He. induction before as [|a b IH]; intros Hb Hw; [exact Hw|].
  rewrite Contains_cons in Hb. apply orb_false_iff in Hb as [Hp Hb].
  change (String a b ++ String e w) with (String a (b ++ String e w)).
  rewrite Contains_cons, (IH Hb Hw), orb_false_r.
  destruct (prefix (String c t) (String a (b ++ String e w))) eqn:E;
    [|reflexivity].
  change (String a (b ++ String e w)) with (String a b ++ String e w) in E.
  apply prefix_straddle in E as [E | (r & Hr & Heq & Hpre)]; [congruence|].
  injection Heq as _ Ht. destruct r as [|e' r]; [congruence|].
  rewrite prefix_cons in Hpre. apply andb_true_iff in Hpre as [Hee _].
  apply Ascii.eqb_eq in Hee as ->.
  rewrite Ht, ContainsByte_append in He. simpl in He.
  rewrite Ascii.eqb_refl, orb_true_r in He. discriminate.
Qed.

(** With a replacement that holds no [c] and begins with a byte foreign
    to [t], no instance of [c t] is left after the replacement. *)
Lemma ReplaceAll_clean (c e : ascii) (t new' : string) :
  ContainsByte (String e new') c = false ->
  ContainsByte t e = false ->
  forall s, Contains (ReplaceAll s (String c t) (String e new')) (String c t)
            = false.
Proof.
  intros Hn He s.
  remember (String.length s) as n eqn:Hlen.
  revert s Hlen. induction n as [n IH] using lt_wf_ind. intros s ->.
  rewrite ReplaceAll_eq by discriminate.
  destruct (Cut s (String c t)) as [[b a]|] eqn:Hc.
  - assert (Hlt : String.length a < String.length s)
      by (eapply Cut_shorter; [|eassumption]; discriminate).
    pose proof (IH _ Hlt a eq_refl) as Ha.
    apply Cut_before in Hc; [|discriminate].
    change (String e new' ++ ReplaceAll a (String c t) (String e new'))
      with (String e (new' ++ ReplaceAll a (String c t) (String e new'))).
    apply Contains_seam; [assumption..|].
    change (String e (new' ++ ReplaceAll a (String c t) (String e new')))
      with (String e new' ++ ReplaceAll a (String c t) (String e new')).
    now apply Contains_inert_front.
  - now apply Cut_None.
Qed.

(** ** [Itoa] *)

Lemma Itoa_nonempty (i : Z) : Itoa i <> "".
Proof.
  unfold Itoa. destruct (Z.to_int i) as [d|d]; simpl; [|discriminate].
  destruct d; discriminate.
Qed.

Lemma Itoa_eqb_empty (i : Z) : (Itoa i =? "")%string = false.
Proof. apply String.eqb_neq, Itoa_nonempty. Qed.

(** [Itoa] writes a numeral that reads back as the integer. *)
Lemma Atoi_Itoa (i : Z) : Atoi (Itoa i) = Some i.
Proof.
  unfold Atoi, Itoa. rewrite NilZero.isi.
  - simpl. now rewrite DecimalZ.of_to.
  - destruct i; simpl; try discriminate.
    intros [= H]. now apply DecimalPos.Unsigned.to_uint_nonnil in H.
  - destruct i; simpl; try discriminate.
    intros [= H]. now apply DecimalPos.Unsigned.to_uint_nonnil in H.
Qed.

(* ================================================================== *)
(** ** [GetPeersConfig] *)

(** With a [tls] section that is a string-keyed map, lines 107-131 return
    the fields read leniently from the entry, in either shape. *)
Lemma extractFields_tls (entry : value) (tls : list (string * value)) :
  supportedShape entry ->
  field entry "tls" = VMapS tls ->
  extractFields entry =
  Ok {| host := fst (assertString (field entry "host"));
        port := fst (assertInt (field entry "port"));
        eventHost := fst (assertString (field entry "event_host"));
        eventPort := fst (assertInt (field entry "event_port"));
        tlsCertificate := fst (assertString (indexS tls "certificate"));
        tlsServerHostOverride :=
          fst (assertString (indexS tls "serverhostoverride")) |}.
Proof.
  intros Hs Ht. destruct entry; try contradiction;
    unfold extractFields; cbn [assertMapS mustMapI bind field] in *;
    rewrite Ht; reflexivity.
Qed.

(** Without such a section the single-result type assertion of line 119
    or 128 panics. *)
Lemma extractFields_no_tls (entry : value) :
  supportedShape entry ->
  (forall tls, field entry "tls" <> VMapS tls) ->
  extractFields entry = Panic (PanicRuntime TypeAssertionError).
Proof.
  intros Hs Ht. destruct entry; try contradiction;
    unfold extractFields; cbn [assertMapS mustMapI bind field] in *.
  - destruct (indexS m "tls") eqn:E; try reflexivity.
    now destruct (Ht m0).
  - destruct (indexI m "tls") eqn:E; try reflexivity.
    now destruct (Ht m0).
Qed.

(** The checks of lines 135-149 as they act: the two port checks compare
    the output of [Itoa] with the empty string and never fire. *)
Lemma checkPeer_eq (v : Viper) (env : Env) (key : string) (f : peerFields) :
  checkPeer v env key f =
  if (host f =? "")%string then
    Panic (PanicString ("host key not exist or empty for " ++ key))
  else if (eventHost f =? "")%string then
    Panic (PanicString ("event_host not exist or empty for " ++ key))
  else if IsTLSEnabled v && (tlsCertificate f =? "")%string then
    Panic (PanicString ("tls.certificate not exist or empty for " ++ key))
  else
    Ok {| Host := host f; Port := Itoa (port f);
          EventHost := eventHost f; EventPort := Itoa (eventPort f);
          TLSCertificate :=
            ReplaceAll (tlsCertificate f) "$GOPATH" (Getenv env "GOPATH");
          TLSServerHostOverride := tlsServerHostOverride f |}.
Proof.
  unfold checkPeer. cbn [Host Port EventHost EventPort TLSCertificate
                         TLSServerHostOverride].
  now rewrite !Itoa_eqb_empty.
Qed.

(** A record that passes the checks carries the fields as extracted. *)
Lemma checkPeer_Ok (v : Viper) (env : Env) (key : string) (f : peerFields)
  (p : PeerConfig) :
  checkPeer v env key f = Ok p ->
  p = {| Host := host f; Port := Itoa (port f);
         EventHost := eventHost f; EventPort := Itoa (eventPort f);
         TLSCertificate :=
           ReplaceAll (tlsCertificate f) "$GOPATH" (Getenv env "GOPATH");
         TLSServerHostOverride := tlsServerHostOverride f |}.
Proof.
  rewrite checkPeer_eq.
  destruct (host f =? "")%string; [discriminate|].
  destruct (eventHost f =? "")%string; [discriminate|].
  destruct (IsTLSEnabled v && (tlsCertificate f =? "")%string);
    [discriminate|].
  now intros [= <-].
Qed.

Lemma peersLoop_app (v : Viper) (env : Env) (l1 l2 : list (string * value)) :
  forall acc,
    peersLoop v env (l1 ++ l2) acc =
    (acc' <- peersLoop v env l1 acc ;; peersLoop v env l2 acc').
Proof.
  induction l1 as [|[key entry] l1 IH]; intros acc; [reflexivity|].
  simpl. destruct (peerEntry v env key entry); simpl; [apply IH | reflexivity].
Qed.

(** The loop reaches a binding when the bindings before it pass. *)
Lemma GetPeersConfig_reach (v : Viper) (env : Env)
  (before after : list (string * value)) (key : string) (entry : value)
  (done : list PeerConfig) :
  GetStringMap v "client.peers" = (before ++ (key, entry) :: after)%list ->
  peersLoop v env before [] = Ok done ->
  GetPeersConfig v env =
  (p <- peerEntry v env key entry ;; peersLoop v env after (done ++ [p])).
Proof.
  intros Hmap Hdone. unfold GetPeersConfig.
  now rewrite Hmap, peersLoop_app, Hdone.
Qed.

(** An entry whose [tls] section is a string-keyed map, with a host and
    an event host, passes whatever its ports are, absent ones included,
    unless TLS is on and its certificate is empty. *)
Lemma peerEntry_ports_unchecked (v : Viper) (env : Env) (key : string)
  (entry : value) (tls : list (string * value)) :
  supportedShape entry ->
  field entry "tls" = VMapS tls ->
  fst (assertString (field entry "host")) <> "" ->
  fst (assertString (field entry "event_host")) <> "" ->
  IsTLSEnabled v = false
    \/ fst (assertString (indexS tls "certificate")) <> "" ->
  exists p, peerEntry v env key entry = Ok p /\
    Port p = Itoa (fst (assertInt (field entry "port"))) /\
    EventPort p = Itoa (fst (assertInt (field entry "event_port"))).
Proof.
  intros Hs Ht Hh He Hc. unfold peerEntry.
  rewrite (extractFields_tls entry tls Hs Ht). cbn [bind].
  rewrite checkPeer_eq. cbn [host eventHost tlsCertificate port eventPort
                             tlsServerHostOverride].
  apply String.eqb_neq in Hh, He. rewrite Hh, He.
  replace (IsTLSEnabled v &&
           (fst (assertString (indexS tls "certificate")) =? "")%string)
    with false.
  - eexists. split; [reflexivity|]. split; reflexivity.
  - destruct Hc as [-> | Hc]; [reflexivity|].
    apply String.eqb_neq in Hc. rewrite Hc. now rewrite andb_false_r.
Qed.

(** C1.  The claim asks for a panic naming the label whenever [host],
    [port], [event_host] or [event_port] is missing.  On an entry of the
    first shape without [port], and on one of the second shape without
    [event_port], [GetPeersConfig] returns a record whose port is ["0"]:
    lines 138 and 144 test the output of [strconv.Itoa], which is never
    empty. *)
Theorem GetPeersConfig_missing_port_accepted :
  GetPeersConfig (settings [("peer0", peerNoPort)] false) envBuild =
    Ok [{| Host := "localhost"; Port := "0";
           EventHost := "localhost"; EventPort := "7053";
           TLSCertificate := "/opt/build/tls/ca.pem";
           TLSServerHostOverride := "peer0" |}] /\
  GetPeersConfig (settings [("peer0", peerNoEventPortI)] true) envBuild =
    Ok [{| Host := "localhost"; Port := "7051";
           EventHost := "localhost"; EventPort := "0";
           TLSCertificate := "/opt/build/tls/ca.pem";
           TLSServerHostOverride := "peer0" |}].
Proof. split; vm_compute; reflexivity. Qed.

(** C2.  The claim says that extracting the fields never panics, also
    when the [tls] key is absent or bound to something else than a
    string-keyed map.  On such entries, in either shape, the
    single-result assertion [.(map[string]interface{})] of lines 119 and
    128 panics, and so does [GetPeersConfig], TLS being off. *)
Theorem extractFields_without_tls_panics :
  extractFields peerNoTLS = Panic (PanicRuntime TypeAssertionError) /\
  extractFields peerNoTLSI = Panic (PanicRuntime TypeAssertionError) /\
  extractFields peerTLSString = Panic (PanicRuntime TypeAssertionError) /\
  GetPeersConfig (settings [("peer0", peerNoTLS)] false) envBuild =
    Panic (PanicRuntime TypeAssertionError).
Proof. repeat split; vm_compute; reflexivity. Qed.

(** X17.  For an entry of either shape with a host and an event host
    (its ports pass as they are) whose [tls] section is a string-keyed
    map with an empty certificate (absent, not a string, or [""]): when
    [client.tls.enabled] is true the entry panics with
    [tls.certificate not exist or empty for <label>], and so does
    [GetPeersConfig] once the loop reaches it; when the flag is false
    the same entry gives its record, which the loop appends. *)
Theorem GetPeersConfig_tls_certificate_check
  (v : Viper) (env : Env) (key : string) (entry : value)
  (tls : list (string * value)) (before after : list (string * value))
  (done : list PeerConfig) :
  supportedShape entry ->
  fst (assertString (field entry "host")) <> "" ->
  fst (assertString (field entry "event_host")) <> "" ->
  field entry "tls" = VMapS tls ->
  fst (assertString (indexS tls "certificate")) = "" ->
  GetStringMap v "client.peers" = (before ++ (key, entry) :: after)%list ->
  peersLoop v env before [] = Ok done ->
  (IsTLSEnabled v = true ->
     peerEntry v env key entry =
       Panic (PanicString ("tls.certificate not exist or empty for " ++ key)) /\
     GetPeersConfig v env =
       Panic (PanicString ("tls.certificate not exist or empty for " ++ key)))
  /\
  (IsTLSEnabled v = false ->
     let p := {| Host := fst (assertString (field entry "host"));
                 Port := Itoa (fst (assertInt (field entry "port")));
                 EventHost := fst (assertString (field entry "event_host"));
                 EventPort := Itoa (fst (assertInt (field entry "event_port")));
                 TLSCertificate := "";
                 TLSServerHostOverride :=
                   fst (assertString (indexS tls "serverhostoverride")) |} in
     peerEntry v env key entry = Ok p /\
     GetPeersConfig v env = peersLoop v env after (done ++ [p])).
Proof.
  intros Hs Hh He Ht Hc Hmap Hdone.
  assert (Hentry : peerEntry v env key entry =
    if IsTLSEnabled v then
      Panic (PanicString ("tls.certificate not exist or empty for " ++ key))
    else
      Ok {| Host := fst (assertString (field entry "host"));
            Port := Itoa (fst (assertInt (field entry "port")));
            EventHost := fst (assertString (field entry "event_host"));
            EventPort := Itoa (fst (assertInt (field entry "event_port")));
            TLSCertificate := "";
            TLSServerHostOverride :=
              fst (assertString (indexS tls "serverhostoverride")) |}).
  { unfold peerEntry. rewrite (extractFields_tls entry tls Hs Ht). cbn [bind].
    rewrite checkPeer_eq. cbn [host eventHost tlsCertificate port eventPort
                               tlsServerHostOverride].
    apply String.eqb_neq in Hh, He. rewrite Hh, He, Hc.
    destruct (IsTLSEnabled v); reflexivity. }
  rewrite (GetPeersConfig_reach v env before after key entry done Hmap Hdone).
  split; intros Htls; rewrite Htls in Hentry; rewrite Hentry; cbn [bind];
    split; reflexivity.
Qed.

Lemma GetPeersConfig_tls_certificate_check_witness :
  GetPeersConfig (settings [("peer0", peer0); ("peer1", peerNoCert)] true)
    envBuild =
    Panic (PanicString "tls.certificate not exist or empty for peer1") /\
  GetPeersConfig (settings [("peer0", peer0); ("peer1", peerNoCert)] false)
    envBuild =
    Ok [{| Host := "localhost"; Port := "7051";
           EventHost := "localhost"; EventPort := "7053";
           TLSCertificate := "/opt/build/tls/ca.pem";
           TLSServerHostOverride := "peer0" |};
        {| Host := "localhost"; Port := "7051";
           EventHost := "localhost"; EventPort := "7053";
           TLSCertificate := "";
           TLSServerHostOverride := "peer0" |}].
Proof.
  split.
  - apply (GetPeersConfig_tls_certificate_check
             (settings [("peer0", peer0); ("peer1", peerNoCert)] true)
             envBuild "peer1" peerNoCert
             [("serverhostoverride", VString "peer0")]
             [("peer0", peer0)] []
             [{| Host := "localhost"; Port := "7051";
                 EventHost := "localhost"; EventPort := "7053";
                 TLSCertificate := "/opt/build/tls/ca.pem";
                 TLSServerHostOverride := "peer0" |}]);
      solve [exact I | discriminate | reflexivity].
  - apply (GetPeersConfig_tls_certificate_check
             (settings [("peer0", peer0); ("peer1", peerNoCert)] false)
             envBuild "peer1" peerNoCert
             [("serverhostoverride", VString "peer0")]
             [("peer0", peer0)] []
             [{| Host := "localhost"; Port := "7051";
                 EventHost := "localhost"; EventPort := "7053";
                 TLSCertificate := "/opt/build/tls/ca.pem";
                 TLSServerHostOverride := "peer0" |}]);
      solve [exact I | discriminate | reflexivity].
Defined.

(* ================================================================== *)
(** ** [InitConfig], [GetTLSCACertPool] and [GetFabricCAClientPath] *)

Section ExternalsProperties.

Variable ReadInConfig : Viper -> Viper * option error.
Variable LogLevel : string -> Level * option error.
Variable pemDecode : list byte -> option Block * list byte.
Variable ParseCertificate : list byte -> Certificate + error.
Variable jsonMarshal : fabricCAConfig -> list byte * option error.

(** C3, as the code has it.  When [InitConfig] is given a non-empty path
    and the settings file cannot be read in, it does not panic: it
    returns the error [Fatal error config file: <cause>] to its caller
    and leaves the logging level as it was. *)
Theorem InitConfig_unparsable_returns_error
  (configFile : string) (st : Process) (v' : Viper) (err : error) :
  configFile <> "" ->
  ReadInConfig (SetConfigFile (myViper st) configFile) = (v', Some err) ->
  InitConfig ReadInConfig LogLevel configFile st =
    Ok (Some ("Fatal error config file: " ++ err),
        {| myViper := v'; moduleLevel := moduleLevel st |}).
Proof.
  intros Hne Hread. unfold InitConfig.
  apply String.eqb_neq in Hne. rewrite Hne. cbn [negb].
  now rewrite Hread.
Qed.

(** C5.  For a non-empty path: a file that cannot be read makes
    [GetTLSCACertPool] return a nil pool and the read error; a file that
    is read but holds no PEM block, or whose first block does not parse
    as a certificate, makes it panic. *)
Theorem GetTLSCACertPool_failures (fs : FileSystem) (tlsCertificate : string) :
  tlsCertificate <> "" ->
  (forall rawData err,
     ReadFile fs tlsCertificate = (rawData, Some err) ->
     GetTLSCACertPool pemDecode ParseCertificate fs tlsCertificate =
       Ok (None, Some err)) /\
  (forall rawData,
     ReadFile fs tlsCertificate = (rawData, None) ->
     (fst (pemDecode rawData) = None ->
      GetTLSCACertPool pemDecode ParseCertificate fs tlsCertificate =
        Panic (PanicRuntime NilDereference)) /\
     (forall block err,
        fst (pemDecode rawData) = Some block ->
        ParseCertificate (Bytes block) = inr err ->
        GetTLSCACertPool pemDecode ParseCertificate fs tlsCertificate =
          Panic (PanicError err))).
Proof.
  intros Hne. apply String.eqb_neq in Hne.
  unfold GetTLSCACertPool. rewrite Hne. cbn [negb].
  split; [intros rawData err -> ; reflexivity|].
  intros rawData ->. unfold loadCAKey.
  destruct (pemDecode rawData) as [block rest]. cbn [fst].
  split.
  - intros ->. reflexivity.
  - intros b err -> Hparse. cbn [bind]. now rewrite Hparse.
Qed.

(** C6.  An empty path gives a pool with no certificate and no error; a
    path to a readable file whose first PEM block parses as a
    certificate gives a pool holding that certificate and nothing
    else. *)
Theorem GetTLSCACertPool_pool_size (fs : FileSystem) :
  GetTLSCACertPool pemDecode ParseCertificate fs "" = Ok (Some [], None) /\
  (forall tlsCertificate rawData block cert,
     tlsCertificate <> "" ->
     ReadFile fs tlsCertificate = (rawData, None) ->
     fst (pemDecode rawData) = Some block ->
     ParseCertificate (Bytes block) = inl cert ->
     exists pool,
       GetTLSCACertPool pemDecode ParseCertificate fs tlsCertificate =
         Ok (Some pool, None) /\
       pool = [cert] /\ List.length pool = 1).
Proof.
  split; [reflexivity|].
  intros path rawData block cert Hne Hread Hpem Hparse.
  apply String.eqb_neq in Hne.
  unfold GetTLSCACertPool, loadCAKey. rewrite Hne, Hread. cbn [negb].
  destruct (pemDecode rawData) as [b rest]. cbn [fst] in Hpem. subst b.
  cbn [bind]. rewrite Hparse. cbn [bind].
  exists [cert]. repeat split.
Qed.

(** What a successful [WriteFile] leaves at the path. *)
Lemma WriteFile_content (fs fs' : FileSystem) (name : string)
  (data : list byte) (perm : Z) :
  WriteFile fs name data perm = (fs', None) ->
  option_map content (files fs' name) = Some data.
Proof.
  unfold WriteFile. destruct (openError fs name); [discriminate|].
  intros [= <-]. cbn [files]. now rewrite String.eqb_refl.
Qed.

(** Writing the same bytes again changes no file. *)
Lemma WriteFile_again (fs fs' : FileSystem) (name : string)
  (data : list byte) (perm : Z) :
  WriteFile fs name data perm = (fs', None) ->
  exists fs'', WriteFile fs' name data perm = (fs'', None) /\
    forall n, files fs'' n = files fs' n.
Proof.
  unfold WriteFile. destruct (openError fs name) eqn:E; [discriminate|].
  intros [= <-]. cbn [openError files]. rewrite E, String.eqb_refl.
  eexists. split; [reflexivity|].
  intros n. cbn [files mode]. destruct (n =? name)%string; reflexivity.
Qed.

(** C7.  When a call of [GetFabricCAClientPath] succeeds, it returns
    [/tmp/client-config.json]; a second call on the same settings
    succeeds as well, returns the same path, and leaves at that path
    the same bytes as the first, the JSON form of the unmarshalled
    descriptor, and every file as the first call left it. *)
Theorem GetFabricCAClientPath_idempotent (v : Viper) (fs fs1 fs2 : FileSystem)
  (r1 r2 : string * option error) :
  GetFabricCAClientPath jsonMarshal v fs = (r1, fs1) ->
  GetFabricCAClientPath jsonMarshal v fs1 = (r2, fs2) ->
  snd r1 = None ->
  r1 = ("/tmp/client-config.json", None) /\
  r2 = ("/tmp/client-config.json", None) /\
  (exists conf json,
     UnmarshalKey v "client.fabricCA" zeroFabricCAConfig = (conf, None) /\
     jsonMarshal conf = (json, None) /\
     option_map content (files fs1 "/tmp/client-config.json") = Some json /\
     option_map content (files fs2 "/tmp/client-config.json") = Some json) /\
  (forall name, files fs2 name = files fs1 name).
Proof.
  unfold GetFabricCAClientPath.
  destruct (UnmarshalKey v "client.fabricCA" zeroFabricCAConfig)
    as [conf [e|]]; [intros [= <- <-] _; discriminate|].
  destruct (jsonMarshal conf) as [json [e|]] eqn:Hjson;
    [intros [= <- <-] _; discriminate|].
  destruct (WriteFile fs "/tmp/client-config.json" json 420)
    as [fs' [e|]] eqn:Hw; [intros [= <- <-] _; discriminate|].
  intros [= <- <-].
  destruct (WriteFile_again _ _ _ _ _ Hw) as (fs'' & Hw' & Hsame).
  rewrite Hw'. intros [= <- <-] _.
  split; [reflexivity|]. split; [reflexivity|]. split; [|exact Hsame].
  exists conf, json. split; [reflexivity|]. split; [exact Hjson|]. split.
  - exact (WriteFile_content _ _ _ _ _ Hw).
  - exact (WriteFile_content _ _ _ _ _ Hw').
Qed.

(** C9.  When the write fails, [GetFabricCAClientPath] returns the path
    [/tmp/client-config.json] with the write error; when unmarshalling
    or serialization fails it returns the empty path with that error;
    and an empty path is returned in these two cases only. *)
Theorem GetFabricCAClientPath_error_paths (v : Viper) (fs : FileSystem) :
  (forall conf json err,
     UnmarshalKey v "client.fabricCA" zeroFabricCAConfig = (conf, None) ->
     jsonMarshal conf = (json, None) ->
     snd (WriteFile fs "/tmp/client-config.json" json 420) = Some err ->
     fst (GetFabricCAClientPath jsonMarshal v fs) =
       ("/tmp/client-config.json", Some err)) /\
  (forall conf err,
     UnmarshalKey v "client.fabricCA" zeroFabricCAConfig = (conf, Some err) ->
     fst (GetFabricCAClientPath jsonMarshal v fs) = ("", Some err)) /\
  (forall conf json err,
     UnmarshalKey v "client.fabricCA" zeroFabricCAConfig = (conf, None) ->
     jsonMarshal conf = (json, Some err) ->
     fst (GetFabricCAClientPath jsonMarshal v fs) = ("", Some err)) /\
  (fst (fst (GetFabricCAClientPath jsonMarshal v fs)) = "" ->
     (exists conf err,
        UnmarshalKey v "client.fabricCA" zeroFabricCAConfig = (conf, Some err))
     \/
     (exists conf json err,
        UnmarshalKey v "client.fabricCA" zeroFabricCAConfig = (conf, None) /\
        jsonMarshal conf = (json, Some err))).
Proof.
  unfold GetFabricCAClientPath. repeat split.
  - intros conf json err -> -> Hw.
    destruct (WriteFile fs "/tmp/client-config.json" json 420) as [fs' e].
    cbn [snd] in Hw. now subst e.
  - now intros conf err ->.
  - now intros conf json err -> ->.
  - destruct (UnmarshalKey v "client.fabricCA" zeroFabricCAConfig)
      as [conf [e|]]; [left; eauto|].
    destruct (jsonMarshal conf) as [json [e|]] eqn:Hjson; [right; eauto|].
    destruct (WriteFile fs "/tmp/client-config.json" json 420) as [fs' e].
    cbn [fst]. discriminate.
Qed.

End ExternalsProperties.

(** C3, as the claim states it, fails: with a reader that cannot parse
    the file, [InitConfig] on a non-empty path does not panic; it returns
    an error value. *)
Lemma InitConfig_unparsable_not_fatal :
  "config.yaml" <> "" /\
  snd (brokenReader (SetConfigFile (myViper freshProcess) "config.yaml"))
    <> None /\
  ~ panics (InitConfig brokenReader upperLogLevel "config.yaml" freshProcess) /\
  exists err st,
    InitConfig brokenReader upperLogLevel "config.yaml" freshProcess =
      Ok (Some err, st).
Proof.
  split; [discriminate|]. split; [discriminate|]. split.
  - intros [p Hp]. vm_compute in Hp. discriminate.
  - eexists. eexists. reflexivity.
Qed.

Lemma InitConfig_unparsable_returns_error_witness :
  InitConfig brokenReader upperLogLevel "config.yaml" freshProcess =
    Ok (Some ("Fatal error config file: " ++
              "While parsing config: yaml: did not find expected key"),
        {| myViper := SetConfigFile (myViper freshProcess) "config.yaml";
           moduleLevel := None |}).
Proof.
  apply (InitConfig_unparsable_returns_error brokenReader upperLogLevel
           "config.yaml" freshProcess
           (SetConfigFile (myViper freshProcess) "config.yaml")
           "While parsing config: yaml: did not find expected key").
  - discriminate.
  - reflexivity.
Defined.

Lemma GetTLSCACertPool_failures_witness :
  GetTLSCACertPool dashDecode sequenceParse lockedFS "ca.pem" =
    Ok (None, Some "open ca.pem: permission denied") /\
  GetTLSCACertPool dashDecode sequenceParse (oneFile "ca.pem" [x00]) "ca.pem" =
    Panic (PanicRuntime NilDereference) /\
  GetTLSCACertPool dashDecode sequenceParse (oneFile "ca.pem" [x2d; x00])
    "ca.pem" = Panic (PanicError "asn1: structure error").
Proof.
  split; [|split].
  - apply (proj1 (GetTLSCACertPool_failures dashDecode sequenceParse
                    lockedFS "ca.pem" ltac:(discriminate)) []).
    reflexivity.
  - apply (proj1 (proj2 (GetTLSCACertPool_failures dashDecode sequenceParse
                           (oneFile "ca.pem" [x00]) "ca.pem"
                           ltac:(discriminate)) [x00] eq_refl)).
    reflexivity.
  - apply (proj2 (proj2 (GetTLSCACertPool_failures dashDecode sequenceParse
                           (oneFile "ca.pem" [x2d; x00]) "ca.pem"
                           ltac:(discriminate)) [x2d; x00] eq_refl)
             {| BlockType := "CERTIFICATE"; Headers := []; Bytes := [x00] |}).
    + reflexivity.
    + reflexivity.
Defined.

Lemma GetTLSCACertPool_pool_size_witness :
  exists pool,
    GetTLSCACertPool dashDecode sequenceParse
      (oneFile "ca.pem" [x2d; x30; x82]) "ca.pem" = Ok (Some pool, None) /\
    pool = [{| Raw := [x30; x82] |}] /\ List.length pool = 1.
Proof.
  apply (proj2 (GetTLSCACertPool_pool_size dashDecode sequenceParse
                  (oneFile "ca.pem" [x2d; x30; x82]))
           "ca.pem" [x2d; x30; x82]
           {| BlockType := "CERTIFICATE"; Headers := [];
              Bytes := [x30; x82] |}).
  - discriminate.
  - reflexivity.
  - reflexivity.
  - reflexivity.
Defined.

Lemma GetFabricCAClientPath_idempotent_witness :
  fst (GetFabricCAClientPath plainMarshal (settings [] false)
         (oneFile "/tmp/other" [])) = ("/tmp/client-config.json", None) /\
  fst (GetFabricCAClientPath plainMarshal (settings [] false)
         (snd (GetFabricCAClientPath plainMarshal (settings [] false)
                 (oneFile "/tmp/other" [])))) =
    ("/tmp/client-config.json", None).
Proof.
  pose proof (GetFabricCAClientPath_idempotent plainMarshal
    (settings [] false) (oneFile "/tmp/other" [])
    (snd (GetFabricCAClientPath plainMarshal (settings [] false)
            (oneFile "/tmp/other" [])))
    (snd (GetFabricCAClientPath plainMarshal (settings [] false)
            (snd (GetFabricCAClientPath plainMarshal (settings [] false)
                    (oneFile "/tmp/other" [])))))
    (fst (GetFabricCAClientPath plainMarshal (settings [] false)
            (oneFile "/tmp/other" [])))
    (fst (GetFabricCAClientPath plainMarshal (settings [] false)
            (snd (GetFabricCAClientPath plainMarshal (settings [] false)
                    (oneFile "/tmp/other" [])))))
    eq_refl eq_refl eq_refl) as (H1 & H2 & _).
  split; [exact H1 | exact H2].
Defined.

Lemma GetFabricCAClientPath_error_paths_witness :
  fst (GetFabricCAClientPath plainMarshal (settings [] false) lockedFS) =
    ("/tmp/client-config.json",
     Some "open /tmp/client-config.json: permission denied") /\
  fst (GetFabricCAClientPath plainMarshal
         (memoryViper [] [] [] [] (zeroFabricCAConfig, Some "1 error(s) decoding"))
         (oneFile "/tmp/other" [])) = ("", Some "1 error(s) decoding") /\
  fst (GetFabricCAClientPath failingMarshal (settings [] false)
         (oneFile "/tmp/other" [])) = ("", Some "json: unsupported value").
Proof.
  split; [|split].
  - apply (proj1 (GetFabricCAClientPath_error_paths plainMarshal
                    (settings [] false) lockedFS)
             sampleCA (fst (plainMarshal sampleCA))); reflexivity.
  - apply (proj1 (proj2 (GetFabricCAClientPath_error_paths plainMarshal
             (memoryViper [] [] [] []
                (zeroFabricCAConfig, Some "1 error(s) decoding"))
             (oneFile "/tmp/other" [])))
             zeroFabricCAConfig); reflexivity.
  - apply (proj1 (proj2 (proj2 (GetFabricCAClientPath_error_paths
             failingMarshal (settings [] false) (oneFile "/tmp/other" []))))
             sampleCA []); reflexivity.
Defined.

(* ================================================================== *)
(** ** The [$GOPATH] token in certificate paths *)

(** What lines 107-131 return is read from an entry of a supported shape
    with a string-keyed [tls] section. *)
Lemma extractFields_Ok (entry : value) (f : peerFields) :
  extractFields entry = Ok f ->
  supportedShape entry /\
  exists tls, field entry "tls" = VMapS tls /\
    f = {| host := fst (assertString (field entry "host"));
           port := fst (assertInt (field entry "port"));
           eventHost := fst (assertString (field entry "event_host"));
           eventPort := fst (assertInt (field entry "event_port"));
           tlsCertificate := fst (assertString (indexS tls "certificate"));
           tlsServerHostOverride :=
             fst (assertString (indexS tls "serverhostoverride")) |}.
Proof.
  intros H.
  assert (Hs : supportedShape entry)
    by (destruct entry; try exact I; discriminate).
  split; [exact Hs|].
  destruct (field entry "tls") eqn:Ht;
    try (rewrite extractFields_no_tls in H;
         [discriminate | exact Hs | intros tls; rewrite Ht; discriminate]).
  exists m. split; [reflexivity|].
  rewrite (extractFields_tls entry m Hs Ht) in H. now injection H as <-.
Qed.

(** C10, as the claim states it, fails: the replacement is made in one
    pass, so that a token wrapped in the pieces of another one is
    uncovered by it.  With [GOPATH] unset, the configured path
    [$GO$GOPATHPATH/ca.pem] comes back as [$GOPATH/ca.pem], from
    [GetOrdererTLSCertificate] and in the record of [GetPeersConfig]. *)
Lemma GOPATH_token_survives :
  GetOrdererTLSCertificate nestedTokenSettings envUnset = "$GOPATH/ca.pem" /\
  Contains (GetOrdererTLSCertificate nestedTokenSettings envUnset) "$GOPATH"
    = true /\
  exists p,
    GetPeersConfig nestedTokenSettings envUnset = Ok [p] /\
    Contains (TLSCertificate p) "$GOPATH" = true.
Proof.
  split; [reflexivity|]. split; [reflexivity|].
  eexists. split; reflexivity.
Qed.

(* ================================================================== *)
(** * Further properties of the package *)

(** ** [GetPeersConfig]: which entries pass, and what they give *)

Lemma field_tls_certificate (entry : value) (tls : list (string * value))
  (k : string) :
  field entry "tls" = VMapS tls -> field (field entry "tls") k = indexS tls k.
Proof. now intros ->. Qed.

(** An accepted entry gives its record. *)
Lemma peerEntry_valid (v : Viper) (env : Env) (key : string) (entry : value) :
  validEntry v entry -> peerEntry v env key entry = Ok (entryRecord env entry).
Proof.
  intros (Hs & (tls & Ht) & Hh & He & Hc).
  unfold peerEntry, entryRecord.
  rewrite (extractFields_tls entry tls Hs Ht). cbn [bind].
  rewrite checkPeer_eq. cbn [host eventHost tlsCertificate port eventPort
                             tlsServerHostOverride].
  rewrite !(field_tls_certificate entry tls _ Ht) in *.
  apply String.eqb_neq in Hh, He. rewrite Hh, He.
  destruct (IsTLSEnabled v); [|reflexivity].
  specialize (Hc eq_refl). apply String.eqb_neq in Hc. now rewrite Hc.
Qed.

(** Only an accepted entry gives a record, and then the one it stands for. *)
Lemma peerEntry_Ok (v : Viper) (env : Env) (key : string) (entry : value)
  (p : PeerConfig) :
  peerEntry v env key entry = Ok p ->
  validEntry v entry /\ p = entryRecord env entry.
Proof.
  intros H. unfold peerEntry in H. apply bind_Ok in H as (f & Hf & Hc).
  apply extractFields_Ok in Hf as (Hs & tls & Ht & ->).
  rewrite checkPeer_eq in Hc.
  cbn [host eventHost tlsCertificate port eventPort tlsServerHostOverride]
    in Hc.
  destruct (fst (assertString (field entry "host")) =? "")%string eqn:Hh;
    [discriminate|].
  destruct (fst (assertString (field entry "event_host")) =? "")%string eqn:He;
    [discriminate|].
  destruct (IsTLSEnabled v &&
            (fst (assertString (indexS tls "certificate")) =? "")%string)
    eqn:Hc'; [discriminate|].
  injection Hc as <-. apply String.eqb_neq in Hh, He.
  split.
  - split; [exact Hs|]. split; [now exists tls|]. split; [exact Hh|].
    split; [exact He|]. intros Htls.
    rewrite (field_tls_certificate entry tls _ Ht).
    rewrite Htls in Hc'. cbn [andb] in Hc'. now apply String.eqb_neq.
  - unfold entryRecord. now rewrite !(field_tls_certificate entry tls _ Ht).
Qed.

(** The loop returns exactly when every binding is accepted, and then
    appends their records in the order of the bindings. *)
Lemma peersLoop_Ok_iff (v : Viper) (env : Env) (peers : list (string * value)) :
  forall acc ps,
    peersLoop v env peers acc = Ok ps <->
    Forall (fun kv => validEntry v (snd kv)) peers /\
    ps = (acc ++ List.map (fun kv => entryRecord env (snd kv)) peers)%list.
Proof.
  induction peers as [|[key entry] peers IH]; intros acc ps.
  - cbn [peersLoop List.map]. rewrite app_nil_r. split.
    + intros [= <-]. split; [constructor | reflexivity].
    + now intros [_ ->].
  - cbn [peersLoop List.map snd]. split.
    + intros H. apply bind_Ok in H as (p & Hp & H).
      apply peerEntry_Ok in Hp as [Hv ->].
      apply IH in H as [Hall ->]. split; [now constructor|].
      now rewrite <- app_assoc.
    + intros [Hall ->]. inversion Hall as [|? ? Hv Hrest]; subst.
      rewrite (peerEntry_valid v env key entry Hv). cbn [bind].
      apply IH. split; [exact Hrest|]. now rewrite <- app_assoc.
Qed.

(** X1.  [GetPeersConfig] returns a list exactly when every binding of
    [client.peers] is an accepted entry, and the list then holds one
    record per binding, in the order of the bindings, each with the
    strings of its entry, its ports in decimal form and its certificate
    path with the token replaced. *)
Theorem GetPeersConfig_Ok_iff (v : Viper) (env : Env) (ps : list PeerConfig) :
  GetPeersConfig v env = Ok ps <->
  Forall (fun kv => validEntry v (snd kv)) (GetStringMap v "client.peers") /\
  ps = List.map (fun kv => entryRecord env (snd kv))
         (GetStringMap v "client.peers").
Proof. unfold GetPeersConfig. now rewrite peersLoop_Ok_iff. Qed.

Lemma GetPeersConfig_Ok_iff_witness :
  GetPeersConfig (settings [("peer0", peer0); ("peer1", peer0I)] true) envBuild
  = Ok [{| Host := "localhost"; Port := "7051";
           EventHost := "localhost"; EventPort := "7053";
           TLSCertificate := "/opt/build/tls/ca.pem";
           TLSServerHostOverride := "peer0" |};
        {| Host := "localhost"; Port := "7051";
           EventHost := "localhost"; EventPort := "7053";
           TLSCertificate := "/opt/build/tls/ca.pem";
           TLSServerHostOverride := "peer0" |}].
Proof.
  apply (proj2 (GetPeersConfig_Ok_iff
                  (settings [("peer0", peer0); ("peer1", peer0I)] true)
                  envBuild _)).
  split; [|reflexivity].
  repeat constructor; try discriminate; now exists
    [("certificate", VString "$GOPATH/tls/ca.pem");
     ("serverhostoverride", VString "peer0")].
Defined.

(** X2.  Every record [GetPeersConfig] returns has a host, an event
    host and both ports non-empty, and there are as many records as
    bindings of [client.peers]. *)
Theorem GetPeersConfig_records (v : Viper) (env : Env) (ps : list PeerConfig) :
  GetPeersConfig v env = Ok ps ->
  List.length ps = List.length (GetStringMap v "client.peers") /\
  Forall (fun p => Host p <> "" /\ Port p <> "" /\
                   EventHost p <> "" /\ EventPort p <> "") ps.
Proof.
  unfold GetPeersConfig. intros H. apply peersLoop_Ok_iff in H as [Hall ->].
  cbn [app]. split; [apply length_map|].
  induction Hall as [|kv peers (_ & _ & Hh & He & _) _ IH]; [constructor|].
  cbn [List.map]. constructor; [|exact IH].
  unfold entryRecord. cbn [Host Port EventHost EventPort].
  repeat split; try assumption; apply Itoa_nonempty.
Qed.

Lemma GetPeersConfig_records_witness :
  List.length [entryRecord envBuild peer0; entryRecord envBuild peerNoPort] = 2
  /\ Forall (fun p => Host p <> "" /\ Port p <> "" /\
                      EventHost p <> "" /\ EventPort p <> "")
       [entryRecord envBuild peer0; entryRecord envBuild peerNoPort].
Proof.
  apply (GetPeersConfig_records
           (settings [("peer0", peer0); ("peer1", peerNoPort)] false) envBuild).
  reflexivity.
Defined.

(** X3.  For an entry of either shape with a string-keyed [tls] section:
    an absent, non-string or empty [host] makes the entry panic with
    [host key not exist or empty for <label>]; with a host, an absent,
    non-string or empty [event_host] makes it panic with
    [event_host not exist or empty for <label>].  The host is reported
    first, whatever the TLS flag and the ports. *)
Theorem peerEntry_host_checks (v : Viper) (env : Env) (key : string)
  (entry : value) (tls : list (string * value)) :
  supportedShape entry ->
  field entry "tls" = VMapS tls ->
  (fst (assertString (field entry "host")) = "" ->
   peerEntry v env key entry =
     Panic (PanicString ("host key not exist or empty for " ++ key))) /\
  (fst (assertString (field entry "host")) <> "" ->
   fst (assertString (field entry "event_host")) = "" ->
   peerEntry v env key entry =
     Panic (PanicString ("event_host not exist or empty for " ++ key))).
Proof.
  intros Hs Ht. unfold peerEntry.
  rewrite (extractFields_tls entry tls Hs Ht). cbn [bind].
  rewrite checkPeer_eq. cbn [host eventHost].
  split.
  - now intros ->.
  - intros Hh ->. apply String.eqb_neq in Hh. now rewrite Hh.
Qed.

Lemma peerEntry_host_checks_witness :
  peerEntry (settings [] true) envBuild "peer7" peerNoHost =
    Panic (PanicString "host key not exist or empty for peer7") /\
  peerEntry (settings [] true) envBuild "peer8" peerNoEventHost =
    Panic (PanicString "event_host not exist or empty for peer8").
Proof.
  split.
  - apply (proj1 (peerEntry_host_checks (settings [] true) envBuild "peer7"
                    peerNoHost
                    [("certificate", VString "$GOPATH/tls/ca.pem");
                     ("serverhostoverride", VString "peer0")] I eq_refl)).
    reflexivity.
  - apply (proj2 (peerEntry_host_checks (settings [] true) envBuild "peer8"
                    peerNoEventHost
                    [("certificate", VString "$GOPATH/tls/ca.pem");
                     ("serverhostoverride", VString "peer0")] I eq_refl)).
    + discriminate.
    + reflexivity.
Defined.

(** X4.  An entry panics with a run-time error exactly when its value is
    neither a [map[string]interface{}] nor a
    [map[interface{}]interface{}], or its [tls] key is not bound to a
    [map[string]interface{}]; the error is then the failed type
    assertion. *)
Theorem peerEntry_runtime_panic_iff (v : Viper) (env : Env) (key : string)
  (entry : value) (e : runtimeError) :
  peerEntry v env key entry = Panic (PanicRuntime e) <->
  e = TypeAssertionError /\
  (~ supportedShape entry \/ forall tls, field entry "tls" <> VMapS tls).
Proof.
  unfold peerEntry. split.
  - intros H.
    assert (Hdec : supportedShape entry \/ ~ supportedShape entry)
      by (destruct entry; cbn; auto).
    destruct Hdec as [Hs | Hs].
    + destruct (field entry "tls") eqn:Ht;
        try (rewrite extractFields_no_tls in H;
             [ injection H as <-; split; [reflexivity|]; right;
               intros tls; discriminate
             | exact Hs | intros tls; rewrite Ht; discriminate ]).
      rewrite (extractFields_tls entry m Hs Ht) in H. cbn [bind] in H.
      rewrite checkPeer_eq in H.
      repeat match type of H with
             | (if ?c then _ else _) = _ => destruct c; try discriminate
             end.
    + destruct entry; cbn in Hs; try tauto;
        cbn in H; injection H as <-; (split; [reflexivity | now left]).
  - intros [-> [Hs | Ht]].
    + destruct entry; cbn in Hs; try tauto; reflexivity.
    + assert (Hdec : supportedShape entry \/ ~ supportedShape entry)
        by (destruct entry; cbn; auto).
      destruct Hdec as [Hs | Hs].
      * now rewrite (extractFields_no_tls entry Hs Ht).
      * destruct entry; cbn in Hs; try tauto; reflexivity.
Qed.

Lemma peerEntry_runtime_panic_iff_witness :
  peerEntry (settings [] false) envBuild "peer0" (VString "localhost:7051") =
    Panic (PanicRuntime TypeAssertionError).
Proof.
  apply (proj2 (peerEntry_runtime_panic_iff (settings [] false) envBuild
                  "peer0" (VString "localhost:7051") TypeAssertionError)).
  split; [reflexivity|]. left. intros [].
Defined.

(** The loop panics exactly at the first binding whose entry panics. *)
Lemma peersLoop_Panic_iff (v : Viper) (env : Env) (pv : panicValue)
  (peers : list (string * value)) :
  forall acc,
    peersLoop v env peers acc = Panic pv <->
    exists before key entry after done,
      peers = (before ++ (key, entry) :: after)%list /\
      peersLoop v env before acc = Ok done /\
      peerEntry v env key entry = Panic pv.
Proof.
  induction peers as [|[key entry] peers IH]; intros acc.
  - split; [discriminate|].
    intros (before & k & e & after & done & Heq & _).
    now destruct before.
  - cbn [peersLoop]. split.
    + destruct (peerEntry v env key entry) as [p|pv'] eqn:Hp; cbn [bind].
      * intros H. apply IH in H
          as (before & k & e & after & done & -> & Hdone & Hk).
        exists ((key, entry) :: before), k, e, after, done.
        split; [reflexivity|]. split; [|exact Hk].
        cbn [peersLoop]. now rewrite Hp.
      * intros [= ->]. exists [], key, entry, peers, acc. now repeat split.
    + intros (before & k & e & after & done & Heq & Hdone & Hk).
      destruct before as [|[k0 e0] before].
      * injection Heq as -> -> ->. now rewrite Hk.
      * injection Heq as -> -> ->. cbn [peersLoop] in Hdone.
        apply bind_Ok in Hdone as (p & Hp & Hdone). rewrite Hp. cbn [bind].
        apply IH. exists before, k, e, after, done. now repeat split.
Qed.

(** X5.  [GetPeersConfig] panics exactly when some binding of
    [client.peers] has an entry that panics while all bindings visited
    before it pass; the panic is that of this first failing entry, and
    the records built so far are lost. *)
Theorem GetPeersConfig_Panic_iff (v : Viper) (env : Env) (pv : panicValue) :
  GetPeersConfig v env = Panic pv <->
  exists before key entry after done,
    GetStringMap v "client.peers" = (before ++ (key, entry) :: after)%list /\
    peersLoop v env before [] = Ok done /\
    peerEntry v env key entry = Panic pv.
Proof. unfold GetPeersConfig. apply peersLoop_Panic_iff. Qed.

Lemma GetPeersConfig_Panic_iff_witness :
  GetPeersConfig
    (settings [("peer0", peer0); ("peer1", peerNoHost); ("peer2", peerNoTLS)]
       false) envBuild =
  Panic (PanicString "host key not exist or empty for peer1").
Proof.
  apply (proj2 (GetPeersConfig_Panic_iff
    (settings [("peer0", peer0); ("peer1", peerNoHost); ("peer2", peerNoTLS)]
       false) envBuild _)).
  exists [("peer0", peer0)], "peer1", peerNoHost, [("peer2", peerNoTLS)],
    [entryRecord envBuild peer0].
  repeat split.
Defined.

(** ** The two shapes of an entry *)

Lemma indexI_stringKeys (m : list (string * value)) (k : string) :
  indexI (stringKeys m) k = indexS m k.
Proof.
  induction m as [|[k' x] m IH]; [reflexivity|].
  cbn [stringKeys List.map indexI indexS fst snd].
  fold (stringKeys m). now rewrite IH.
Qed.

(** X6.  An entry handed out as a [map[interface{}]interface{}] with
    string keys is treated as the [map[string]interface{}] with the
    same bindings: both give the same record or the same panic. *)
Theorem peerEntry_shape_independent (v : Viper) (env : Env) (key : string)
  (m : list (string * value)) :
  peerEntry v env key (VMapI (stringKeys m)) = peerEntry v env key (VMapS m).
Proof.
  unfold peerEntry, extractFields.
  cbn [assertMapS mustMapI bind]. now rewrite !indexI_stringKeys.
Qed.

(** X7.  A port that is not an integer, a quoted number for instance,
    is not rejected: the record carries the port ["0"]. *)
Theorem peerEntry_port_not_int (v : Viper) (env : Env) (key : string)
  (entry : value) (p : PeerConfig) :
  peerEntry v env key entry = Ok p ->
  ((forall i, field entry "port" <> VInt i) -> Port p = "0") /\
  ((forall i, field entry "event_port" <> VInt i) -> EventPort p = "0").
Proof.
  intros H. apply peerEntry_Ok in H as [_ ->].
  unfold entryRecord. cbn [Port EventPort].
  split; intros Hn.
  - destruct (field entry "port"); try reflexivity. now destruct (Hn i).
  - destruct (field entry "event_port"); try reflexivity. now destruct (Hn i).
Qed.

Lemma peerEntry_port_not_int_witness :
  Port (entryRecord envBuild peerQuotedPorts) = "0" /\
  EventPort (entryRecord envBuild peerQuotedPorts) = "0".
Proof.
  split.
  - apply (proj1 (peerEntry_port_not_int (settings [] true) envBuild "peer0"
                    peerQuotedPorts (entryRecord envBuild peerQuotedPorts)
                    eq_refl)).
    intros i. discriminate.
  - apply (proj2 (peerEntry_port_not_int (settings [] true) envBuild "peer0"
                    peerQuotedPorts (entryRecord envBuild peerQuotedPorts)
                    eq_refl)).
    intros i. discriminate.
Defined.

(** ** Certificate paths that the substitution leaves alone *)

(** Replacing a text by itself changes nothing. *)
Lemma ReplaceAll_same (old : string) :
  old <> "" -> forall s, ReplaceAll s old old = s.
Proof.
  intros Hold s.
  remember (String.length s) as n eqn:Hlen.
  revert s Hlen. induction n as [n IH] using lt_wf_ind. intros s ->.
  rewrite ReplaceAll_eq by assumption.
  destruct (Cut s old) as [[b a]|] eqn:Hc; [|reflexivity].
  rewrite (IH _ (Cut_shorter _ _ _ _ Hold Hc) a eq_refl).
  symmetry. now apply Cut_sound.
Qed.

(** X8.  A configured certificate path without [$GOPATH] is returned as
    it is, whatever the environment, by [GetOrdererTLSCertificate] and
    in the record of an accepted entry; and when the value of [GOPATH]
    is the text [$GOPATH] itself, every configured path is returned as
    it is. *)
Theorem certificate_path_unchanged (v : Viper) (env : Env) :
  (Contains (GetString v "client.orderer.tls.certificate") "$GOPATH" = false ->
   GetOrdererTLSCertificate v env =
     GetString v "client.orderer.tls.certificate") /\
  (forall key entry p,
     peerEntry v env key entry = Ok p ->
     Contains (fst (assertString (field (field entry "tls") "certificate")))
       "$GOPATH" = false ->
     TLSCertificate p =
       fst (assertString (field (field entry "tls") "certificate"))) /\
  (env "GOPATH" = Some "$GOPATH" ->
   GetOrdererTLSCertificate v env =
     GetString v "client.orderer.tls.certificate" /\
   forall key entry p,
     peerEntry v env key entry = Ok p ->
     TLSCertificate p =
       fst (assertString (field (field entry "tls") "certificate"))).
Proof.
  split; [|split].
  - intros H. unfold GetOrdererTLSCertificate.
    now apply ReplaceAll_absent.
  - intros key entry p Hp H. apply peerEntry_Ok in Hp as [_ ->].
    unfold entryRecord. cbn [TLSCertificate]. now apply ReplaceAll_absent.
  - intros Henv.
    assert (Hg : Getenv env "GOPATH" = "$GOPATH")
      by (unfold Getenv; now rewrite Henv).
    split.
    + unfold GetOrdererTLSCertificate. rewrite Hg.
      now apply ReplaceAll_same.
    + intros key entry p Hp. apply peerEntry_Ok in Hp as [_ ->].
      unfold entryRecord. cbn [TLSCertificate]. rewrite Hg.
      now apply ReplaceAll_same.
Qed.

Lemma certificate_path_unchanged_witness :
  GetOrdererTLSCertificate
    (memoryViper [("client.orderer.tls.certificate", "/etc/tls/ca.pem")]
       [] [] [] (sampleCA, None)) envBuild = "/etc/tls/ca.pem" /\
  GetOrdererTLSCertificate (settings [] false)
    (fun _ => Some "$GOPATH") = "$GOPATH/orderer/ca.pem".
Proof.
  split.
  - apply (proj1 (certificate_path_unchanged
             (memoryViper [("client.orderer.tls.certificate", "/etc/tls/ca.pem")]
                [] [] [] (sampleCA, None)) envBuild)).
    reflexivity.
  - apply (proj1 (proj2 (proj2 (certificate_path_unchanged
             (settings [] false) (fun _ => Some "$GOPATH"))) eq_refl)).
Defined.

(* ================================================================== *)
(** ** [InitConfig], [GetTLSCACertPool] and [GetFabricCAClientPath], further *)

Section ExternalsFurther.

Variable ReadInConfig : Viper -> Viper * option error.
Variable LogLevel : string -> Level * option error.
Variable pemDecode : list byte -> option Block * list byte.
Variable ParseCertificate : list byte -> Certificate + error.
Variable jsonMarshal : fabricCAConfig -> list byte * option error.

Lemma InitConfig_loaded (configFile : string) (st : Process) (v : Viper) :
  loaded ReadInConfig configFile st v ->
  InitConfig ReadInConfig LogLevel configFile st = setLoggingLevel LogLevel v.
Proof.
  unfold InitConfig. intros [[-> ->] | [Hne Hread]]; [reflexivity|].
  apply String.eqb_neq in Hne. now rewrite Hne, Hread.
Qed.

(** X9.  When no file is given, or the file is read in, [InitConfig]
    returns no error and keeps the settings it read; the level it
    registers is [INFO] when [client.logging.level] is absent or empty,
    and the level that [logging.LogLevel] gives for the setting
    otherwise. *)
Theorem InitConfig_level (configFile : string) (st : Process) (v : Viper) :
  loaded ReadInConfig configFile st v ->
  (GetString v "client.logging.level" = "" ->
   InitConfig ReadInConfig LogLevel configFile st =
     Ok (None, {| myViper := v; moduleLevel := Some INFO |})) /\
  (forall l,
     GetString v "client.logging.level" <> "" ->
     LogLevel (GetString v "client.logging.level") = (l, None) ->
     InitConfig ReadInConfig LogLevel configFile st =
       Ok (None, {| myViper := v; moduleLevel := Some l |})).
Proof.
  intros Hl. rewrite (InitConfig_loaded configFile st v Hl).
  unfold setLoggingLevel. split.
  - now intros ->.
  - intros l Hne Hlevel. apply String.eqb_neq in Hne.
    now rewrite Hne, Hlevel.
Qed.

(** X10.  When no file is given, or the file is read in, and
    [client.logging.level] names a level that [logging.LogLevel] does
    not know, [InitConfig] panics with the error of [logging.LogLevel];
    it returns nothing. *)
Theorem InitConfig_unknown_level_panics (configFile : string) (st : Process)
  (v : Viper) (l : Level) (err : error) :
  loaded ReadInConfig configFile st v ->
  GetString v "client.logging.level" <> "" ->
  LogLevel (GetString v "client.logging.level") = (l, Some err) ->
  InitConfig ReadInConfig LogLevel configFile st = Panic (PanicError err).
Proof.
  intros Hl Hne Hlevel. rewrite (InitConfig_loaded configFile st v Hl).
  unfold setLoggingLevel. apply String.eqb_neq in Hne.
  now rewrite Hne, Hlevel.
Qed.

(** X11.  [InitConfig] returns an error only when it was given a file
    that the reader could not read in; the error then wraps the cause,
    and the registered level is the one from before the call, whatever
    [client.logging.level] says. *)
Theorem InitConfig_error_only_from_reader (configFile : string) (st st' : Process)
  (err : error) :
  InitConfig ReadInConfig LogLevel configFile st = Ok (Some err, st') ->
  configFile <> "" /\
  exists v cause,
    ReadInConfig (SetConfigFile (myViper st) configFile) = (v, Some cause) /\
    err = "Fatal error config file: " ++ cause /\
    st' = {| myViper := v; moduleLevel := moduleLevel st |}.
Proof.
  assert (Hset : forall v, setLoggingLevel LogLevel v <> Ok (Some err, st')).
  { intros v. unfold setLoggingLevel.
    destruct (negb (GetString v "client.logging.level" =? "")%string);
      [destruct (LogLevel (GetString v "client.logging.level")) as [l [e|]]|];
      cbn [bind]; discriminate. }
  unfold InitConfig.
  destruct (configFile =? "")%string eqn:E; cbn [negb].
  - intros H. now apply Hset in H.
  - apply String.eqb_neq in E.
    destruct (ReadInConfig (SetConfigFile (myViper st) configFile))
      as [v [cause|]].
    + intros [= <- <-]. split; [exact E|]. now exists v, cause.
    + intros H. now apply Hset in H.
Qed.

(** X12.  What [GetTLSCACertPool] returns: the pool is nil exactly when
    an error is returned; a returned pool holds at most one
    certificate, and none exactly when the path is empty. *)
Theorem GetTLSCACertPool_returns (fs : FileSystem) (tlsCertificate : string)
  (pool : option CertPool) (err : option error) :
  GetTLSCACertPool pemDecode ParseCertificate fs tlsCertificate
    = Ok (pool, err) ->
  (pool = None <-> err <> None) /\
  (forall certs, pool = Some certs ->
     List.length certs <= 1 /\ (certs = [] <-> tlsCertificate = "")).
Proof.
  clear ReadInConfig LogLevel jsonMarshal.
  unfold GetTLSCACertPool.
  destruct (tlsCertificate =? "")%string eqn:E; cbn [negb].
  - apply String.eqb_eq in E. intros [= <- <-]. split.
    + split; [discriminate | congruence].
    + intros certs [= <-]. cbn. split; [lia | tauto].
  - apply String.eqb_neq in E.
    destruct (ReadFile fs tlsCertificate) as [rawData [e|]].
    + intros [= <- <-]. split.
      * split; [discriminate | reflexivity].
      * intros certs [=].
    + destruct (loadCAKey pemDecode ParseCertificate rawData) as [cert|pv];
        cbn [bind]; [|discriminate].
      intros [= <- <-]. split.
      * split; [discriminate | congruence].
      * intros certs [= <-]. cbn. split; [lia|].
        split; [discriminate | contradiction].
Qed.

(** X13.  [GetTLSCACertPool] panics exactly when the path is not empty,
    the file is read, and its content has no PEM block or a first block
    that does not parse as a certificate. *)
Theorem GetTLSCACertPool_panics_iff (fs : FileSystem) (tlsCertificate : string) :
  panics (GetTLSCACertPool pemDecode ParseCertificate fs tlsCertificate) <->
  tlsCertificate <> "" /\
  exists rawData,
    ReadFile fs tlsCertificate = (rawData, None) /\
    (fst (pemDecode rawData) = None \/
     exists block err,
       fst (pemDecode rawData) = Some block /\
       ParseCertificate (Bytes block) = inr err).
Proof.
  unfold GetTLSCACertPool, loadCAKey, panics.
  destruct (tlsCertificate =? "")%string eqn:E; cbn [negb].
  - apply String.eqb_eq in E. split.
    + intros [pv H]. discriminate.
    + intros [Hne _]. contradiction.
  - apply String.eqb_neq in E.
    destruct (ReadFile fs tlsCertificate) as [rawData [e|]].
    + split; [intros [pv H]; discriminate|].
      intros [_ (raw & H & _)]. discriminate.
    + destruct (pemDecode rawData) as [[block|] rest] eqn:Hpem; cbn [bind fst].
      * destruct (ParseCertificate (Bytes block)) as [cert|err] eqn:Hparse;
          cbn [bind].
        -- split; [intros [pv H]; discriminate|].
           intros [_ (raw & [= <-] & [H | (b & err & H & Hp)])];
             rewrite Hpem in H; cbn [fst] in H; [discriminate|].
           injection H as <-. congruence.
        -- split; [|intros _; eauto].
           intros _. split; [exact E|]. exists rawData.
           split; [reflexivity|]. right. exists block, err.
           rewrite Hpem. now split.
      * split; [|intros _; eauto].
        intros _. split; [exact E|]. exists rawData.
        split; [reflexivity|]. left. now rewrite Hpem.
Qed.

(** X14.  [GetFabricCAClientPath] writes to [/tmp/client-config.json]
    only: every other file is as before the call, whatever the outcome;
    and when it returns the empty path (unmarshalling or serialization
    failed) the file system is the one from before the call. *)
Theorem GetFabricCAClientPath_writes_one_file (v : Viper) (fs : FileSystem) :
  (forall name, name <> "/tmp/client-config.json" ->
     files (snd (GetFabricCAClientPath jsonMarshal v fs)) name = files fs name)
  /\
  (fst (fst (GetFabricCAClientPath jsonMarshal v fs)) = "" ->
   snd (GetFabricCAClientPath jsonMarshal v fs) = fs).
Proof.
  unfold GetFabricCAClientPath.
  destruct (UnmarshalKey v "client.fabricCA" zeroFabricCAConfig)
    as [conf [e|]]; [now split|].
  destruct (jsonMarshal conf) as [json [e|]]; [now split|].
  unfold WriteFile.
  destruct (openError fs "/tmp/client-config.json"); cbn [fst snd].
  - split; [reflexivity | discriminate].
  - split; [|discriminate].
    intros name Hne. cbn [files]. apply String.eqb_neq in Hne.
    now rewrite Hne.
Qed.

End ExternalsFurther.

Lemma GetFabricCAClientPath_writes_one_file_witness :
  files (snd (GetFabricCAClientPath plainMarshal (settings [] false)
                (oneFile "/tmp/other" [x41]))) "/tmp/other" =
    Some {| content := [x41]; mode := 420 |} /\
  snd (GetFabricCAClientPath failingMarshal (settings [] false) lockedFS)
    = lockedFS.
Proof.
  split.
  - apply (proj1 (GetFabricCAClientPath_writes_one_file plainMarshal
                    (settings [] false) (oneFile "/tmp/other" [x41]))).
    discriminate.
  - apply (proj2 (GetFabricCAClientPath_writes_one_file failingMarshal
                    (settings [] false) lockedFS)).
    reflexivity.
Defined.

Lemma InitConfig_level_witness :
  InitConfig brokenReader upperLogLevel "" freshProcess =
    Ok (None, {| myViper := myViper freshProcess; moduleLevel := Some INFO |})
  /\
  InitConfig (levelReader "DEBUG") upperLogLevel "config.yaml" freshProcess =
    Ok (None,
        {| myViper := SetConfigFile (levelSettings "DEBUG") "config.yaml";
           moduleLevel := Some DEBUG |}).
Proof.
  split.
  - apply (proj1 (InitConfig_level brokenReader upperLogLevel "" freshProcess
                    (myViper freshProcess) (or_introl (conj eq_refl eq_refl)))).
    reflexivity.
  - assert (Hl : loaded (levelReader "DEBUG") "config.yaml" freshProcess
                   (SetConfigFile (levelSettings "DEBUG") "config.yaml"))
      by (right; split; [discriminate | reflexivity]).
    apply (proj2 (InitConfig_level (levelReader "DEBUG") upperLogLevel
                    "config.yaml" freshProcess
                    (SetConfigFile (levelSettings "DEBUG") "config.yaml") Hl)).
    + discriminate.
    + reflexivity.
Defined.

Lemma InitConfig_unknown_level_panics_witness :
  InitConfig (levelReader "verbose") upperLogLevel "config.yaml" freshProcess =
    Panic (PanicError "logger: invalid log level").
Proof.
  apply (InitConfig_unknown_level_panics (levelReader "verbose") upperLogLevel
           "config.yaml" freshProcess
           (SetConfigFile (levelSettings "verbose") "config.yaml") ERROR).
  - right. split; [discriminate | reflexivity].
  - discriminate.
  - reflexivity.
Defined.

Lemma InitConfig_error_only_from_reader_witness :
  "config.yaml" <> "" /\
  exists v cause,
    brokenReader (SetConfigFile (myViper freshProcess) "config.yaml")
      = (v, Some cause) /\
    "Fatal error config file: While parsing config: yaml: did not find expected key"
      = "Fatal error config file: " ++ cause /\
    {| myViper := SetConfigFile (myViper freshProcess) "config.yaml";
       moduleLevel := None |}
      = {| myViper := v; moduleLevel := moduleLevel freshProcess |}.
Proof.
  apply (InitConfig_error_only_from_reader brokenReader upperLogLevel
           "config.yaml" freshProcess).
  reflexivity.
Defined.

Lemma GetTLSCACertPool_returns_witness :
  (Some [{| Raw := [x30; x82] |}] = None <-> (None : option error) <> None) /\
  (forall certs, Some [{| Raw := [x30; x82] |}] = Some certs ->
     List.length certs <= 1 /\ (certs = [] <-> "ca.pem" = "")).
Proof.
  apply (GetTLSCACertPool_returns dashDecode sequenceParse
           (oneFile "ca.pem" [x2d; x30; x82]) "ca.pem").
  reflexivity.
Defined.

Lemma GetTLSCACertPool_panics_iff_witness :
  panics (GetTLSCACertPool dashDecode sequenceParse
            (oneFile "ca.pem" [x00]) "ca.pem").
Proof.
  apply (proj2 (GetTLSCACertPool_panics_iff dashDecode sequenceParse
                  (oneFile "ca.pem" [x00]) "ca.pem")).
  split; [discriminate|]. exists [x00]. split; [reflexivity|]. now left.
Defined.

(* ================================================================== *)
(** ** [GetPeersConfig] under another TLS flag or another environment *)





(* ================================================================== *)
(** ** The TLS check on an entry without a [tls] section *)

(** C4.  The claim asks, for an entry with its four fields and an empty
    certificate, for a panic naming the label when TLS is on and for a
    record when TLS is off.  The entry [peerNoTLS] has a host, a port,
    an event host and an event port and configures no certificate; yet
    with the flag true [GetPeersConfig] panics with the failed type
    assertion of line 119, which names no label, and with the flag false
    it panics in the same way and gives no record. *)
Theorem GetPeersConfig_without_tls_section :
  (fst (assertString (field peerNoTLS "host")) = "localhost" /\
   field peerNoTLS "port" = VInt 7051 /\
   fst (assertString (field peerNoTLS "event_host")) = "localhost" /\
   field peerNoTLS "event_port" = VInt 7053 /\
   configuredCertificate peerNoTLS = "") /\
  IsTLSEnabled (settings [("peer0", peerNoTLS)] true) = true /\
  GetPeersConfig (settings [("peer0", peerNoTLS)] true) envBuild =
    Panic (PanicRuntime TypeAssertionError) /\
  IsTLSEnabled (settings [("peer0", peerNoTLS)] false) = false /\
  GetPeersConfig (settings [("peer0", peerNoTLS)] false) envBuild =
    Panic (PanicRuntime TypeAssertionError) /\
  GetPeersConfig (settings [("peer0", peerNoTLSI)] false) envBuild =
    Panic (PanicRuntime TypeAssertionError).
Proof. repeat split; vm_compute; reflexivity. Qed.

(* ================================================================== *)
(** ** The replacement of the token, record by record *)

(** [ReplaceAll] replaces each token as [tokensReplaced] says. *)
Lemma ReplaceAll_tokensReplaced (new : string) :
  forall s, tokensReplaced new s (ReplaceAll s "$GOPATH" new).
Proof.
  intros s. remember (String.length s) as n eqn:Hlen.
  revert s Hlen. induction n as [n IH] using lt_wf_ind. intros s ->.
  rewrite ReplaceAll_eq by discriminate.
  destruct (Cut s "$GOPATH") as [[b a]|] eqn:Hc.
  - assert (Hlt : String.length a < String.length s)
      by (eapply Cut_shorter; [|eassumption]; discriminate).
    assert (Hb : Contains b "$GOPATH" = false)
      by (eapply Cut_before; [|eassumption]; discriminate).
    pose proof (IH _ Hlt a eq_refl) as Ha.
    apply Cut_sound in Hc. rewrite Hc at 1.
    now apply replaced_first.
  - apply replaced_none. now apply Cut_None.
Qed.

(** [tokensReplaced] leaves one result only, that of [ReplaceAll]. *)
Lemma tokensReplaced_ReplaceAll (new s r : string) :
  tokensReplaced new s r -> r = ReplaceAll s "$GOPATH" new.
Proof.
  induction 1 as [s Hs | before after r Hb _ ->].
  - symmetry. apply ReplaceAll_absent; [discriminate | exact Hs].
  - now rewrite (ReplaceAll_first "$" "GOPATH" before after new eq_refl Hb).
Qed.

Lemma ReplaceAll_pathResolved (env : Env) (raw : string) :
  pathResolved env raw (ReplaceAll raw "$GOPATH" (Getenv env "GOPATH")).
Proof.
  unfold Getenv.
  split; intros ->; (split; [apply ReplaceAll_tokensReplaced|]);
    intros before after -> Hb Ha;
    rewrite (ReplaceAll_first "$" "GOPATH" before after _ eq_refl Hb);
    rewrite (ReplaceAll_absent after "$GOPATH" _) by (discriminate || exact Ha);
    reflexivity.
Qed.

(** The records of [GetPeersConfig] stand, one by one and in order, for
    the bindings of [client.peers]. *)
Lemma GetPeersConfig_Forall2 (v : Viper) (env : Env) (ps : list PeerConfig) :
  GetPeersConfig v env = Ok ps ->
  Forall2 (fun kv p => p = entryRecord env (snd kv))
    (GetStringMap v "client.peers") ps.
Proof.
  unfold GetPeersConfig. intros H. apply peersLoop_Ok_iff in H as [_ ->].
  cbn [app]. induction (GetStringMap v "client.peers") as [|kv l IH];
    cbn [List.map]; constructor; [reflexivity | exact IH].
Qed.

(** ** Strings whose only [$] are those of their tokens *)

Lemma onlyTokenDollars_drop (n : nat) :
  forall s, onlyTokenDollars s = true -> onlyTokenDollars (drop n s) = true.
Proof.
  induction n as [|n IH]; intros s H; [exact H|].
  destruct s as [|c s]; [reflexivity|].
  cbn [drop]. apply IH. cbn [onlyTokenDollars] in H.
  now apply andb_true_iff in H as [_ H].
Qed.

Lemma dollar_prefix (c : ascii) (s : string) :
  onlyTokenDollars (String c s) = true ->
  prefix "$GOPATH" (String c s) = false ->
  (c =? "$")%char = false /\ onlyTokenDollars s = true.
Proof.
  cbn [onlyTokenDollars]. intros H E.
  apply andb_true_iff in H as [Hc Hs]. split; [|exact Hs].
  destruct (c =? "$")%char eqn:Ec; [|reflexivity].
  apply Ascii.eqb_eq in Ec. subst c.
  rewrite prefix_cons, Ascii.eqb_refl, Hc in E. discriminate.
Qed.

Lemma Cut_dollars (s : string) :
  forall before after,
    onlyTokenDollars s = true ->
    Cut s "$GOPATH" = Some (before, after) ->
    ContainsByte before "$" = false /\ onlyTokenDollars after = true.
Proof.
  induction s as [|c s IH]; intros before after H; [discriminate|].
  rewrite Cut_cons. destruct (prefix "$GOPATH" (String c s)) eqn:E.
  - intros [= <- <-]. split; [reflexivity|].
    exact (onlyTokenDollars_drop 7 (String c s) H).
  - destruct (dollar_prefix c s H E) as [Hc Hs].
    destruct (Cut s "$GOPATH") as [[b a]|] eqn:Hcut; [|discriminate].
    intros [= <- <-]. destruct (IH b a Hs eq_refl) as [Hb Ha].
    split; [|exact Ha]. cbn [ContainsByte]. now rewrite Hc, Hb.
Qed.

Lemma Cut_None_dollars (s : string) :
  onlyTokenDollars s = true -> Cut s "$GOPATH" = None ->
  ContainsByte s "$" = false.
Proof.
  induction s as [|c s IH]; intros H; [reflexivity|].
  rewrite Cut_cons. destruct (prefix "$GOPATH" (String c s)) eqn:E;
    [discriminate|].
  destruct (dollar_prefix c s H E) as [Hc Hs].
  destruct (Cut s "$GOPATH") as [[b a]|] eqn:Hcut; [discriminate|].
  intros _. cbn [ContainsByte]. now rewrite Hc, (IH Hs eq_refl).
Qed.

(** With a replacement that holds no [$], a string whose only [$] are
    those of its tokens is left without any [$]. *)
Lemma ReplaceAll_no_dollar (new : string) :
  ContainsByte new "$" = false ->
  forall s, onlyTokenDollars s = true ->
    ContainsByte (ReplaceAll s "$GOPATH" new) "$" = false.
Proof.
  intros Hn s. remember (String.length s) as n eqn:Hlen.
  revert s Hlen. induction n as [n IH] using lt_wf_ind. intros s -> Hs.
  rewrite ReplaceAll_eq by discriminate.
  destruct (Cut s "$GOPATH") as [[b a]|] eqn:Hc.
  - assert (Hlt : String.length a < String.length s)
      by (eapply Cut_shorter; [|eassumption]; discriminate).
    destruct (Cut_dollars s b a Hs Hc) as [Hb Ha].
    rewrite !ContainsByte_append, Hb, Hn. cbn [orb].
    exact (IH _ Hlt a eq_refl Ha).
  - now apply Cut_None_dollars.
Qed.

Lemma no_dollar_no_token (r : string) :
  ContainsByte r "$" = false -> Contains r "$GOPATH" = false.
Proof.
  induction r as [|a r IH]; intros H; [reflexivity|].
  cbn [ContainsByte] in H. apply orb_false_iff in H as [Ha Hr].
  rewrite Contains_cons, (IH Hr), orb_false_r, prefix_cons.
  now rewrite Ascii.eqb_sym, Ha.
Qed.

(** Under [tokenFreeAfter] the replacement leaves no token. *)
Lemma ReplaceAll_token_free (new raw : string) :
  tokenFreeAfter new raw ->
  Contains (ReplaceAll raw "$GOPATH" new) "$GOPATH" = false.
Proof.
  intros [Hi | [Hn Hr]].
  - unfold inertReplacement in Hi. destruct new as [|e new']; [contradiction|].
    destruct Hi as [Hd He]. now apply ReplaceAll_clean.
  - now apply no_dollar_no_token, ReplaceAll_no_dollar.
Qed.

(** C8.  The path [GetOrdererTLSCertificate] returns is the configured
    one resolved, and when [GetPeersConfig] returns, its records match
    the bindings of [client.peers] one by one, the certificate path of
    each record being the path its own entry configures, resolved:
    with [GOPATH] set to [/opt/build] each token is replaced by
    [/opt/build], once, a path with a single token changing in that
    token only; with [GOPATH] unset each token is replaced by the empty
    string. *)
Theorem GOPATH_substitution (v : Viper) (env : Env) :
  pathResolved env (GetString v "client.orderer.tls.certificate")
    (GetOrdererTLSCertificate v env) /\
  (forall ps,
     GetPeersConfig v env = Ok ps ->
     Forall2 (fun kv p =>
                pathResolved env (configuredCertificate (snd kv))
                  (TLSCertificate p))
       (GetStringMap v "client.peers") ps).
Proof.
  split; [apply ReplaceAll_pathResolved|].
  intros ps H. apply GetPeersConfig_Forall2 in H.
  eapply Forall2_impl; [|exact H].
  intros kv p ->. unfold entryRecord, configuredCertificate.
  cbn [TLSCertificate]. apply ReplaceAll_pathResolved.
Qed.

Lemma GOPATH_substitution_witness :
  GetOrdererTLSCertificate (settings [("peer0", peer0I)] false) envBuild =
    "" ++ "/opt/build" ++ "/orderer/ca.pem" /\
  GetOrdererTLSCertificate (settings [("peer0", peer0I)] false) envUnset =
    "" ++ "/orderer/ca.pem" /\
  Forall2 (fun kv p =>
             pathResolved envBuild (configuredCertificate (snd kv))
               (TLSCertificate p))
    [("peer0", peer0I); ("peer1", peerNoCert)]
    [{| Host := "localhost"; Port := "7051";
        EventHost := "localhost"; EventPort := "7053";
        TLSCertificate := "/opt/build/tls/ca.pem";
        TLSServerHostOverride := "peer0" |};
     {| Host := "localhost"; Port := "7051";
        EventHost := "localhost"; EventPort := "7053";
        TLSCertificate := "";
        TLSServerHostOverride := "peer0" |}].
Proof.
  split; [|split].
  - destruct (proj1 (GOPATH_substitution (settings [("peer0", peer0I)] false)
                       envBuild)) as [Hset _].
    destruct (Hset eq_refl) as [_ Hone].
    apply (Hone "" "/orderer/ca.pem"); reflexivity.
  - destruct (proj1 (GOPATH_substitution (settings [("peer0", peer0I)] false)
                       envUnset)) as [_ Hunset].
    destruct (Hunset eq_refl) as [_ Hone].
    apply (Hone "" "/orderer/ca.pem"); reflexivity.
  - apply (proj2 (GOPATH_substitution
                    (settings [("peer0", peer0I); ("peer1", peerNoCert)] false)
                    envBuild)).
    reflexivity.
Defined.

(** C10, as the code has it.  [GetOrdererPort] returns the decimal form
    of the integer setting, which is never empty and reads back as that
    integer.  When [GetPeersConfig] returns, its records match the
    bindings of [client.peers] one by one: [Port] and [EventPort] are
    the decimal forms of the integers read from the record's own entry,
    never empty, and ["0"] when the key is absent.  The path of
    [GetOrdererTLSCertificate] and the certificate path of each record
    are the configured path with each [$GOPATH], met from left to right,
    replaced by the value of [GOPATH]; they contain no [$GOPATH] when
    that value holds no [$] (it may be empty or unset) and the
    configured path holds no [$] besides those of its tokens, and also
    when that value is not empty, holds no [$] and does not begin with a
    letter of [GOPATH]. *)
Theorem ports_decimal_paths_token_free (v : Viper) (env : Env) :
  (GetOrdererPort v = Itoa (GetInt v "client.orderer.port") /\
   GetOrdererPort v <> "" /\
   Atoi (GetOrdererPort v) = Some (GetInt v "client.orderer.port")) /\
  tokensReplaced (Getenv env "GOPATH")
    (GetString v "client.orderer.tls.certificate")
    (GetOrdererTLSCertificate v env) /\
  (tokenFreeAfter (Getenv env "GOPATH")
     (GetString v "client.orderer.tls.certificate") ->
   Contains (GetOrdererTLSCertificate v env) "$GOPATH" = false) /\
  (forall ps,
     GetPeersConfig v env = Ok ps ->
     Forall2 (fun kv p =>
       Port p = Itoa (fst (assertInt (field (snd kv) "port"))) /\
       EventPort p = Itoa (fst (assertInt (field (snd kv) "event_port"))) /\
       Port p <> "" /\ EventPort p <> "" /\
       Atoi (Port p) = Some (fst (assertInt (field (snd kv) "port"))) /\
       Atoi (EventPort p) =
         Some (fst (assertInt (field (snd kv) "event_port"))) /\
       (field (snd kv) "port" = VNil -> Port p = "0") /\
       (field (snd kv) "event_port" = VNil -> EventPort p = "0") /\
       tokensReplaced (Getenv env "GOPATH")
         (configuredCertificate (snd kv)) (TLSCertificate p) /\
       (tokenFreeAfter (Getenv env "GOPATH")
          (configuredCertificate (snd kv)) ->
        Contains (TLSCertificate p) "$GOPATH" = false))
       (GetStringMap v "client.peers") ps).
Proof.
  split; [|split; [|split]].
  - unfold GetOrdererPort.
    split; [reflexivity|]. split; [apply Itoa_nonempty | apply Atoi_Itoa].
  - apply ReplaceAll_tokensReplaced.
  - apply ReplaceAll_token_free.
  - intros ps H. apply GetPeersConfig_Forall2 in H.
    eapply Forall2_impl; [|exact H].
    intros kv p ->. unfold entryRecord, configuredCertificate.
    cbn [Port EventPort TLSCertificate].
    split; [reflexivity|]. split; [reflexivity|].
    split; [apply Itoa_nonempty|]. split; [apply Itoa_nonempty|].
    split; [apply Atoi_Itoa|]. split; [apply Atoi_Itoa|].
    split; [now intros ->|]. split; [now intros ->|].
    split; [apply ReplaceAll_tokensReplaced | apply ReplaceAll_token_free].
Qed.

Lemma ports_decimal_paths_token_free_witness :
  Contains (GetOrdererTLSCertificate nestedTokenSettings envBuild) "$GOPATH"
    = false /\
  Contains (GetOrdererTLSCertificate (settings [] false) envUnset) "$GOPATH"
    = false /\
  Forall2 (fun kv p =>
       Port p = Itoa (fst (assertInt (field (snd kv) "port"))) /\
       EventPort p = Itoa (fst (assertInt (field (snd kv) "event_port"))) /\
       Port p <> "" /\ EventPort p <> "" /\
       Atoi (Port p) = Some (fst (assertInt (field (snd kv) "port"))) /\
       Atoi (EventPort p) =
         Some (fst (assertInt (field (snd kv) "event_port"))) /\
       (field (snd kv) "port" = VNil -> Port p = "0") /\
       (field (snd kv) "event_port" = VNil -> EventPort p = "0") /\
       tokensReplaced (Getenv envUnset "GOPATH")
         (configuredCertificate (snd kv)) (TLSCertificate p) /\
       (tokenFreeAfter (Getenv envUnset "GOPATH")
          (configuredCertificate (snd kv)) ->
        Contains (TLSCertificate p) "$GOPATH" = false))
    [("peer0", peerNoPort)]
    [{| Host := "localhost"; Port := "0";
        EventHost := "localhost"; EventPort := "7053";
        TLSCertificate := "/tls/ca.pem";
        TLSServerHostOverride := "peer0" |}].
Proof.
  split; [|split].
  - apply (proj1 (proj2 (proj2 (ports_decimal_paths_token_free
                                  nestedTokenSettings envBuild)))).
    left. split; reflexivity.
  - apply (proj1 (proj2 (proj2 (ports_decimal_paths_token_free
                                  (settings [] false) envUnset)))).
    right. split; reflexivity.
  - apply (proj2 (proj2 (proj2 (ports_decimal_paths_token_free
                                  (settings [("peer0", peerNoPort)] false)
                                  envUnset)))).
    reflexivity.
Defined.
